(** * MarketController: query-to-filter mapping and error-to-status translation

    Shallow embedding of
    [src/infrastructure/web/controllers/MarketController.ts]: the two
    request handlers [getMarkets] and [getMarketById], the JavaScript
    values they inspect, and the collaborators they call. *)

From Stdlib Require Import NArith Ascii String List.
From Stdlib Require Import DecimalString DecimalN DecimalPos.
From Stdlib Require HexadecimalString HexadecimalN HexadecimalPos.
From stdpp Require Import base option gmap strings list fin_maps.

Local Open Scope string_scope.

(** ** JavaScript values seen by the controller *)

Module JS.

(** A JavaScript string is kept as the byte string of its UTF-8 encoding.
    Emptiness and [===] against the ASCII literals of the controller are
    the same on both sides of the encoding. *)

(** Number values reachable from [parseInt]: [NaN], the infinities, and the
    doubles that are integers, zero with its sign. *)
Inductive Number : Type :=
| NaN
| Infinity (negative : bool)
| Finite (negative : bool) (magnitude : N).

#[global] Instance Number_eq_dec : EqDecision Number.
Proof. solve_decision. Defined.

(** Truthiness of a property read that yields a string or [undefined]:
    [undefined] and the empty string are falsy, every other string is
    truthy. *)
Definition truthy (v : option string) : bool :=
  match v with
  | None => false
  | Some EmptyString => false
  | Some (String _ _) => true
  end.

(** *** [parseInt(string)] with the radix argument left out *)

Definition code (c : ascii) : N := N_of_ascii c.

(** One-byte members of WhiteSpace and LineTerminator: TAB, LF, VT, FF, CR,
    SP. *)
Definition isWhiteSpace1 (c : ascii) : bool :=
  let n := code c in
  ((9 <=? n) && (n <=? 13) || (n =? 32))%N.

(** U+00A0 (NBSP), encoded C2 A0. *)
Definition isWhiteSpace2 (c1 c2 : ascii) : bool :=
  ((code c1 =? 194) && (code c2 =? 160))%N.

(** The three-byte ones: U+1680 (E1 9A 80), U+2000..U+200A (E2 80 80..8A),
    U+2028, U+2029 (E2 80 A8, A9), U+202F (E2 80 AF), U+205F (E2 81 9F),
    U+3000 (E3 80 80) and U+FEFF (EF BB BF). *)
Definition isWhiteSpace3 (c1 c2 c3 : ascii) : bool :=
  let a := code c1 in
  let b := code c2 in
  let c := code c3 in
  ((a =? 225) && (b =? 154) && (c =? 128)
   || (a =? 226) && (b =? 128)
        && ((128 <=? c) && (c <=? 138) || (c =? 168) || (c =? 169) || (c =? 175))
   || (a =? 226) && (b =? 129) && (c =? 159)
   || (a =? 227) && (b =? 128) && (c =? 128)
   || (a =? 239) && (b =? 187) && (c =? 191))%N.

(** TrimString(S, start). *)
Fixpoint trimStart (s : string) : string :=
  match s with
  | EmptyString => EmptyString
  | String c1 s1 =>
      if isWhiteSpace1 c1 then trimStart s1
      else
        match s1 with
        | EmptyString => s
        | String c2 s2 =>
            if isWhiteSpace2 c1 c2 then trimStart s2
            else
              match s2 with
              | EmptyString => s
              | String c3 s3 =>
                  if isWhiteSpace3 c1 c2 c3 then trimStart s3 else s
              end
        end
  end.

(** Value of a code unit as a digit: 0-9, then a-z and A-Z for 10..35. *)
Definition digitValue (c : ascii) : option N :=
  let n := code c in
  if ((48 <=? n) && (n <=? 57))%N then Some (n - 48)%N
  else if ((97 <=? n) && (n <=? 122))%N then Some (n - 87)%N
  else if ((65 <=? n) && (n <=? 90))%N then Some (n - 55)%N
  else None.

Definition radixDigit (R : N) (c : ascii) : option N :=
  match digitValue c with
  | Some d => if (d <? R)%N then Some d else None
  | None => None
  end.

(** The longest prefix of radix-[R] digits, read as a number; [acc] is
    [None] until a digit has been read. *)
Fixpoint parseDigits (R : N) (acc : option N) (s : string) : option N :=
  match s with
  | EmptyString => acc
  | String c s' =>
      match radixDigit R c with
      | Some d => parseDigits R (Some (default 0%N acc * R + d)%N) s'
      | None => acc
      end
  end.

(** The Number value for a mathematical integer: the nearest double, ties
    to even, infinite from 2^1024 on. (An engine may replace the digits
    after the twentieth by zeros before that; the digits are all kept
    here.) *)
Definition toDouble (negative : bool) (n : N) : Number :=
  if (n <? 2 ^ 53)%N then Finite negative n
  else
    let shift := (N.log2 n - 52)%N in
    let q := N.shiftr n shift in
    let r := N.land n (N.ones shift) in
    let half := N.shiftl 1 (shift - 1) in
    let q' := if ((half <? r) || (r =? half) && N.odd q)%N then (q + 1)%N else q in
    let v := N.shiftl q' shift in
    if (v <? 2 ^ 1024)%N then Finite negative v else Infinity negative.

Definition stripSign (s : string) : bool * string :=
  match s with
  | String "-" s' => (true, s')
  | String "+" s' => (false, s')
  | _ => (false, s)
  end.

Definition stripPrefix (s : string) : N * string :=
  match s with
  | String "0" (String "x" s') => (16%N, s')
  | String "0" (String "X" s') => (16%N, s')
  | _ => (10%N, s)
  end.

Definition parseInt (input : string) : Number :=
  let '(negative, S1) := stripSign (trimStart input) in
  let '(R, S2) := stripPrefix S1 in
  match parseDigits R None S2 with
  | None => NaN
  | Some mathInt => toDouble negative mathInt
  end.

Arguments parseInt : simpl never.

End JS.

(** ** Data model *)

(** A value stored under a key of [MarketFilters]: [status], [creatorId],
    [sortBy] and [sortOrder] hold strings, [limit] and [offset] hold what
    [parseInt] returned. *)
Inductive FilterValue : Type :=
| FString (s : string)
| FNumber (n : JS.Number).

#[global] Instance FilterValue_eq_dec : EqDecision FilterValue.
Proof. solve_decision. Defined.

(** [const filters: MarketFilters = {}] is an object filled key by key. *)
Abbreviation MarketFilters := (gmap string FilterValue).

(** The part of the Express request the handlers read. [query] holds the
    string-valued query parameters, as the [as string] assertions of the
    source have them (a repeated or bracketed parameter, which Express
    parses to an array or an object, is not covered); [params] holds the
    path parameters. A key that is absent reads as [undefined]. *)
Record Request : Type := {
  query : gmap string string;
  params : gmap string string
}.

(** Modelled from the spec: the class [NotFoundError] of
    [shared/errors/DomainError] is not among the sources at hand. A thrown
    value is a [NotFoundError] (an [Error] subclass: the handler reads its
    [message]), some other instance of [Error], or a value that is not an
    [Error] at all: a string, a number, a plain object. Such a value may
    well have a [message] property of its own, as the object
    [{message: "db down"}] has; the handlers never look into it. *)
Inductive Thrown : Type :=
| NotFoundError (message : string)
| Error (message : string)
| NonError (message : option string).

#[global] Instance Thrown_eq_dec : EqDecision Thrown.
Proof. solve_decision. Defined.

(** [error instanceof Error ? error.message : 'Unknown error'] *)
Definition messageOrUnknown (e : Thrown) : string :=
  match e with
  | NotFoundError message | Error message => message
  | NonError _ => "Unknown error"
  end.

(** How a call ends: with a value or with a thrown one (for an awaited
    promise: fulfilled or rejected). *)
Inductive Outcome (A : Type) : Type :=
| Returns (a : A)
| Throws (e : Thrown).

Arguments Returns {A} a.
Arguments Throws {A} e.

(** [MarketErrorResponseDto]: [message] is optional. *)
Record MarketErrorResponseDto : Type := {
  error : string;
  message : option string
}.

(** The calls made on the two use cases. *)
Inductive Call : Type :=
| GetMarketsExecute (filters : MarketFilters)
| GetMarketByIdExecute (market_id : string).

(** ** The "Parse query parameters" block of [getMarkets]

    Each [if (req.query[k])] reads the parameter again in its branch;
    [default ""] stands for the [as string] assertion there, where the
    guard has excluded [undefined]. *)

Definition getMarkets_filters (query : gmap string string) : MarketFilters :=
  let filters : MarketFilters := ∅ in
  let filters :=
    if JS.truthy (query !! "status")
    then <["status" := FString (default "" (query !! "status"))]> filters
    else filters in
  let filters :=
    if JS.truthy (query !! "creatorId")
    then <["creatorId" := FString (default "" (query !! "creatorId"))]> filters
    else filters in
  let filters :=
    if JS.truthy (query !! "limit")
    then <["limit" := FNumber (JS.parseInt (default "" (query !! "limit")))]> filters
    else filters in
  let filters :=
    if JS.truthy (query !! "offset")
    then <["offset" := FNumber (JS.parseInt (default "" (query !! "offset")))]> filters
    else filters in
  let filters :=
    if JS.truthy (query !! "sortBy")
    then
      let sortBy := default "" (query !! "sortBy") in
      if bool_decide (sortBy = "createTms") || bool_decide (sortBy = "resolutionTime")
      then <["sortBy" := FString sortBy]> filters
      else filters
    else filters in
  let filters :=
    if JS.truthy (query !! "sortOrder")
    then
      let sortOrder := default "" (query !! "sortOrder") in
      if bool_decide (sortOrder = "asc") || bool_decide (sortOrder = "desc")
      then <["sortOrder" := FString sortOrder]> filters
      else filters
    else filters in
  filters.

(** ** The handlers *)

Section Controller.

(** [World] is the state behind the use cases (the store they read);
    [Market] and [MarketList] are what they return, the two DTO types what
    the mapping functions of [application/dto/MarketDto] make of that. *)
Context {World Market MarketList MarketResponseDto MarketListResponseDto : Type}.

(** A use case object: [execute] may read and change the world, and
    returns or throws. *)
Record UseCase (I O : Type) : Type := {
  execute : I -> World -> Outcome O * World
}.
Arguments execute {I O} _ _ _.

(** [constructor(private getMarketsUseCase, private getMarketByIdUseCase)] *)
Record MarketController : Type := {
  getMarketsUseCase : UseCase MarketFilters MarketList;
  getMarketByIdUseCase : UseCase string Market
}.

(** The DTOs: the mapping functions of [application/dto/MarketDto], which
    are pure and may throw, and what becomes of a DTO in [res.json], which
    hands it to [JSON.stringify]: [None] when it can be serialised, the
    message of the [TypeError] thrown when it cannot (a cycle, a BigInt). *)
Record MarketDto : Type := {
  marketToDto : Market -> Outcome MarketResponseDto;
  marketListToDto : MarketList -> Outcome MarketListResponseDto;
  marketJsonError : MarketResponseDto -> option string;
  marketListJsonError : MarketListResponseDto -> option string
}.

Variable dto : MarketDto.

(** What [res.status(code).json(body)] is given. *)
Inductive Body : Type :=
| MarketListBody (response : MarketListResponseDto)
| MarketBody (response : MarketResponseDto)
| ErrorBody (errorResponse : MarketErrorResponseDto).

Record Envelope : Type := {
  status : nat;
  body : Body
}.

(** What a handler does that can be seen from outside, in order. *)
Inductive Event : Type :=
| Invoke (call : Call)
| ConsoleError (label : string) (error : Thrown)
| Respond (envelope : Envelope).

Record State : Type := {
  world : World;
  trace : list Event
}.

(** Computations of a handler: they thread the state and end like a
    call. *)
Definition M (A : Type) : Type := State -> Outcome A * State.

Definition ret {A} (a : A) : M A := fun st => (Returns a, st).

Definition bind {A B} (m : M A) (k : A -> M B) : M B :=
  fun st =>
    match m st with
    | (Returns a, st') => k a st'
    | (Throws e, st') => (Throws e, st')
    end.

(** [try { body } catch (error) { handler }]: what [body] did before it
    threw stays done. *)
Definition tryCatch {A} (body : M A) (handler : Thrown -> M A) : M A :=
  fun st =>
    match body st with
    | (Returns a, st') => (Returns a, st')
    | (Throws e, st') => handler e st'
    end.

Definition emit (ev : Event) : M unit :=
  fun st => (Returns tt, {| world := world st; trace := trace st ++ [ev] |}).

(** A pure call that may throw. *)
Definition lift {A} (o : Outcome A) : M A := fun st => (o, st).

(** [await useCase.execute(input)]: the call is recorded with the argument
    the use case is run on; [call] says which use case it is. *)
Definition await {I O} (call : I -> Call) (useCase : UseCase I O) (input : I) : M O :=
  fun st =>
    let '(o, w) := execute useCase input (world st) in
    (o, {| world := w; trace := trace st ++ [Invoke (call input)] |}).

(** [JSON.stringify(body)] inside [res.json]: the error bodies are made of
    strings and always serialise, a DTO may not. *)
Definition stringify (b : Body) : Outcome unit :=
  let typeError :=
    match b with
    | MarketListBody response => marketListJsonError dto response
    | MarketBody response => marketJsonError dto response
    | ErrorBody _ => None
    end in
  match typeError with
  | Some message => Throws (Error message)
  | None => Returns tt
  end.

(** [res.status(code).json(body)]: when the body cannot be serialised the
    call throws and nothing is sent. *)
Definition res_status_json (code : nat) (b : Body) : M unit :=
  bind (lift (stringify b))
       (fun _ => emit (Respond {| status := code; body := b |})).

Definition console_error (label : string) (e : Thrown) : M unit :=
  emit (ConsoleError label e).

Notation "x <- m ;; k" := (bind m (fun x => k))
  (at level 100, m at next level, right associativity).
Notation "m ;;; k" := (bind m (fun _ => k))
  (at level 100, right associativity).

Definition getMarkets (this : MarketController) (req : Request) : M unit :=
  tryCatch
    (let filters := getMarkets_filters (query req) in
     result <- await GetMarketsExecute (getMarketsUseCase this) filters ;;
     response <- lift (marketListToDto dto result) ;;
     res_status_json 200 (MarketListBody response))
    (fun error =>
       console_error "Error fetching markets:" error ;;;
       let errorResponse :=
         {| error := "Internal server error";
            message := Some (messageOrUnknown error) |} in
       res_status_json 500 (ErrorBody errorResponse)).

Definition getMarketById (this : MarketController) (req : Request) : M unit :=
  tryCatch
    (let market_id := params req !! "market_id" in
     if negb (JS.truthy market_id)
     then
       let errorResponse :=
         {| error := "Market ID is required"; message := None |} in
       res_status_json 400 (ErrorBody errorResponse)
     else
       let market_id := default "" market_id in
       result <- await GetMarketByIdExecute (getMarketByIdUseCase this) market_id ;;
       response <- lift (marketToDto dto result) ;;
       res_status_json 200 (MarketBody response))
    (fun error =>
       console_error "Error fetching market by ID:" error ;;;
       match error with
       | NotFoundError message =>
           let errorResponse :=
             {| error := "Market not found"; message := Some message |} in
           res_status_json 404 (ErrorBody errorResponse)
       | _ =>
           let errorResponse :=
             {| error := "Internal server error";
                message := Some (messageOrUnknown error) |} in
           res_status_json 500 (ErrorBody errorResponse)
       end).

(** A handler run on a fresh request: nothing has happened yet. *)
Definition run {A} (m : M A) (w : World) : Outcome A * State :=
  m {| world := w; trace := [] |}.

Definition responses (t : list Event) : list Envelope :=
  omap (fun ev => match ev with Respond env => Some env | _ => None end) t.

Definition invocations (t : list Event) : list Call :=
  omap (fun ev => match ev with Invoke c => Some c | _ => None end) t.

End Controller.

Arguments execute {World I O} _ _ _.

(** The keys of [MarketFilters]. *)
Definition recognised : gset string :=
  {[ "status"; "creatorId"; "limit"; "offset"; "sortBy"; "sortOrder" ]}.

(** The failure the collaborators of an operation produce for an input, if
    any: what the use case throws, or else what the mapping of its result
    throws. *)
Definition failure {World I O D : Type}
    (useCase : UseCase I O) (toDto : O -> Outcome D) (input : I) (w : World)
    : option Thrown :=
  match execute useCase input w with
  | (Throws e, _) => Some e
  | (Returns result, _) =>
      match toDto result with
      | Throws e => Some e
      | Returns _ => None
      end
  end.

(** The message of the [TypeError] with which the answer to a successful
    request fails, if it does: the use case and the mapping have returned,
    and the DTO cannot be serialised. *)
Definition unserialisable {World I O D : Type}
    (useCase : UseCase I O) (toDto : O -> Outcome D)
    (jsonError : D -> option string) (input : I) (w : World)
    : option string :=
  match execute useCase input w with
  | (Returns result, _) =>
      match toDto result with
      | Returns response => jsonError response
      | Throws _ => None
      end
  | (Throws _, _) => None
  end.

(** The message a thrown value carries, in the plain sense of the words:
    its [message] property, if it has one, be the value an [Error] or
    not. *)
Definition carriedMessage (e : Thrown) : option string :=
  match e with
  | NotFoundError message | Error message => Some message
  | NonError message => message
  end.

(** The entry of the filters under key [k] as section 4.1 of the
    specification words it: only a recognised key that is present and
    non-empty is copied, [status] and [creatorId] verbatim, [limit] and
    [offset] parsed as integers, [sortBy] and [sortOrder] only when the
    value is one of the enumerated ones. *)
Definition spec_filter_entry (query : gmap string string) (k : string)
    : option FilterValue :=
  match query !! k with
  | Some (String _ _ as s) =>
      if bool_decide (k = "status") || bool_decide (k = "creatorId")
      then Some (FString s)
      else if bool_decide (k = "limit") || bool_decide (k = "offset")
      then Some (FNumber (JS.parseInt s))
      else if bool_decide (k = "sortBy")
      then
        if bool_decide (s = "createTms") || bool_decide (s = "resolutionTime")
        then Some (FString s) else None
      else if bool_decide (k = "sortOrder")
      then
        if bool_decide (s = "asc") || bool_decide (s = "desc")
        then Some (FString s) else None
      else None
  | _ => None
  end.

(** The request with query parameter [k] left out. *)
Definition without (k : string) (req : Request) : Request :=
  {| query := delete k (query req); params := params req |}.

(** The decimal numeral of [n], as a client writes a number in a query
    string: "0", "7", "120". *)
Definition numeral (n : N) : string := NilEmpty.string_of_uint (N.to_uint n).

(** The hexadecimal numeral of [n], in lower case and without a prefix:
    "0", "1f", "ff". *)
Definition hexNumeral (n : N) : string :=
  HexadecimalString.NilEmpty.string_of_uint (N.to_hex_uint n).

(** Text after which a number read by [parseInt] does not go on: nothing,
    or something that starts with neither a decimal digit nor the [x] of a
    hexadecimal prefix. *)
Definition stops_number (t : string) : Prop :=
  match t with
  | EmptyString => True
  | String c _ => JS.radixDigit 10 c = None /\ c <> "x"%char /\ c <> "X"%char
  end.

(** ** Collaborators for running the handlers

    The world counts the calls served; the store holds the market "m0". *)
Module Double.

(** Markets are their names, and the DTOs are the entities; they all
    serialise. *)
Definition dto : MarketDto :=
  {| marketToDto := fun m : string => Returns m;
     marketListToDto := fun l : list string => Returns l;
     marketJsonError := fun _ => None;
     marketListJsonError := fun _ => None |}.

(** The same mappings, to DTOs that [JSON.stringify] refuses. *)
Definition cyclic : MarketDto :=
  {| marketToDto := fun m : string => Returns m;
     marketListToDto := fun l : list string => Returns l;
     marketJsonError := fun _ => Some "Converting circular structure to JSON";
     marketListJsonError := fun _ => Some "Converting circular structure to JSON" |}.

Definition getMarkets : UseCase (World := nat) MarketFilters (list string) :=
  {| execute := fun _ served => (Returns ["m0"], S served) |}.

Definition getMarketById : UseCase (World := nat) string string :=
  {| execute := fun id served =>
       (if bool_decide (id = "m0") then Returns "Market zero"
        else Throws (NotFoundError ("no market " +:+ id)),
        S served) |}.

Definition controller : MarketController :=
  {| getMarketsUseCase := getMarkets; getMarketByIdUseCase := getMarketById |}.

(** Both use cases throw [e], whatever they are asked. *)
Definition failing (e : Thrown) : MarketController (World := nat) (Market := string) (MarketList := list string) :=
  {| getMarketsUseCase := {| execute := fun _ served => (Throws e, S served) |};
     getMarketByIdUseCase := {| execute := fun _ served => (Throws e, S served) |} |}.

(** Use cases that write down what they are called with: the world is the
    list of the calls received. *)
Definition spy : MarketController (World := list Call) (Market := string) (MarketList := list string) :=
  {| getMarketsUseCase :=
       {| execute := fun filters received =>
            (Returns ["m0"], (received ++ [GetMarketsExecute filters])%list) |};
     getMarketByIdUseCase :=
       {| execute := fun id received =>
            (Returns id, (received ++ [GetMarketByIdExecute id])%list) |} |}.

(** Use cases that only read: the world is the store of the markets by
    identifier, and what a call returns depends on it. *)
Definition reading : MarketController (World := gmap string string) (Market := string) (MarketList := list string) :=
  {| getMarketsUseCase :=
       {| execute := fun _ store => (Returns (snd <$> map_to_list store), store) |};
     getMarketByIdUseCase :=
       {| execute := fun id store =>
            (match store !! id with
             | Some market => Returns market
             | None => Throws (NotFoundError ("no market " +:+ id))
             end, store) |} |}.

Definition listRequest (q : list (string * string)) : Request :=
  {| query := list_to_map q; params := ∅ |}.

Definition itemRequest (market_id : option string) : Request :=
  {| query := ∅;
     params := match market_id with
               | Some id => {[ "market_id" := id ]}
               | None => ∅
               end |}.

End Double.

Example parseInt_10 : JS.parseInt "10" = JS.Finite false 10.
Proof. reflexivity. Qed.

Example parseInt_0 : JS.parseInt "0" = JS.Finite false 0.
Proof. reflexivity. Qed.

Example parseInt_abc : JS.parseInt "abc" = JS.NaN.
Proof. reflexivity. Qed.

Example parseInt_trailing : JS.parseInt "  12px" = JS.Finite false 12.
Proof. reflexivity. Qed.

Example parseInt_negative : JS.parseInt "-5" = JS.Finite true 5.
Proof. reflexivity. Qed.

Example parseInt_hex : JS.parseInt "0x1f" = JS.Finite false 31.
Proof. reflexivity. Qed.

Example parseInt_rounds : JS.parseInt "9007199254740993" = JS.Finite false 9007199254740992.
Proof. vm_compute. reflexivity. Qed.

Example parseInt_negative_zero : JS.parseInt "-0" = JS.Finite true 0.
Proof. reflexivity. Qed.

Example parseInt_blank : JS.parseInt " " = JS.NaN.
Proof. reflexivity. Qed.

Section ParseInt.

Implicit Types (R acc : N) (s : string).

Lemma toDouble_not_NaN negative n : JS.toDouble negative n <> JS.NaN.
Proof. unfold JS.toDouble. by repeat case_match. Qed.

(** Once a digit has been read, a number comes out. *)
Lemma parseDigits_started R acc s : is_Some (JS.parseDigits R (Some acc) s).
Proof.
  revert acc. induction s as [|c s IH]; intros acc; simpl; [by eexists|].
  destruct (JS.radixDigit R c); [apply IH | by eexists].
Qed.

Lemma parseDigits_None R s :
  JS.parseDigits R None s = None
  <-> match s with
      | EmptyString => True
      | String c _ => JS.radixDigit R c = None
      end.
Proof.
  destruct s as [|c s]; simpl; [done|].
  destruct (JS.radixDigit R c) as [d|]; [|done].
  destruct (parseDigits_started R (0 * R + d) s) as [n Hn].
  simpl. rewrite Hn. done.
Qed.

(** [parseInt] yields [NaN] exactly when no digit follows the blanks, the
    sign and the hexadecimal prefix. *)
Lemma parseInt_NaN s :
  JS.parseInt s = JS.NaN
  <-> JS.parseDigits (JS.stripPrefix (JS.stripSign (JS.trimStart s)).2).1 None
        (JS.stripPrefix (JS.stripSign (JS.trimStart s)).2).2 = None.
Proof.
  unfold JS.parseInt.
  destruct (JS.stripSign (JS.trimStart s)) as [negative S1]. simpl.
  destruct (JS.stripPrefix S1) as [R S2]. simpl.
  destruct (JS.parseDigits R None S2) as [mathInt|]; [|done].
  split; [|done]. intros H. by apply toDouble_not_NaN in H.
Qed.

End ParseInt.

(** ** The filters built from the query *)

Section Filters.

Implicit Types (q : gmap string string) (k : string) (filters : MarketFilters).

Lemma truthy_Some (v : option string) :
  JS.truthy v = true <-> exists s, v = Some s /\ s <> "".
Proof.
  destruct v as [[|a s]|]; simpl; split; try done.
  - intros (s & [= <-] & Hs). done.
  - intros _. by eexists.
  - intros (s & ? & _). done.
Qed.

Lemma lookup_assign (c : bool) (key : string) (v : FilterValue) filters k :
  (if c then <[key := v]> filters else filters) !! k
  = if c && bool_decide (key = k) then Some v else filters !! k.
Proof.
  destruct c; simpl; [|done].
  case_bool_decide as Hk; [subst; apply lookup_insert_eq | by apply lookup_insert_ne].
Qed.

Lemma lookup_assign_checked (c d : bool) (key : string) (v : FilterValue) filters k :
  (if c then if d then <[key := v]> filters else filters else filters) !! k
  = if c && d && bool_decide (key = k) then Some v else filters !! k.
Proof. destruct c, d; simpl; try done. apply (lookup_assign true). Qed.

Local Ltac by_key q key :=
  simpl; rewrite ?andb_false_r, ?andb_true_r; simpl;
  destruct (q !! key) as [[|? ?]|]; simpl; try done;
  by destruct (_ || _).

(** The object built by the source is the one the specification
    describes, key by key. *)
Lemma getMarkets_filters_lookup q k :
  getMarkets_filters q !! k = spec_filter_entry q k.
Proof.
  unfold getMarkets_filters. cbv zeta.
  rewrite !lookup_assign_checked, !lookup_assign, lookup_empty.
  unfold spec_filter_entry.
  destruct (decide (k = "sortOrder")) as [->|]; [by_key q "sortOrder"|].
  destruct (decide (k = "sortBy")) as [->|]; [by_key q "sortBy"|].
  destruct (decide (k = "offset")) as [->|]; [by_key q "offset"|].
  destruct (decide (k = "limit")) as [->|]; [by_key q "limit"|].
  destruct (decide (k = "creatorId")) as [->|]; [by_key q "creatorId"|].
  destruct (decide (k = "status")) as [->|]; [by_key q "status"|].
  repeat match goal with
         | H : k <> ?key |- _ =>
             rewrite (bool_decide_eq_false_2 (key = k)) by congruence;
             rewrite (bool_decide_eq_false_2 (k = key)) by congruence;
             clear H
         end.
  rewrite ?andb_false_r. simpl. by destruct (q !! k) as [[|? ?]|].
Qed.

Lemma spec_filter_entry_Some q k v :
  spec_filter_entry q k = Some v ->
  k ∈ recognised /\ exists s, q !! k = Some s /\ s <> "".
Proof.
  unfold spec_filter_entry, recognised.
  destruct (q !! k) as [[|a s]|]; [done| |done].
  intros Hv. split; [|by eexists].
  repeat case_bool_decide; simplify_eq/=; set_solver.
Qed.

Lemma getMarkets_filters_dom q : dom (getMarkets_filters q) ⊆ recognised.
Proof.
  intros k [v Hv]%elem_of_dom.
  rewrite getMarkets_filters_lookup in Hv.
  by apply spec_filter_entry_Some in Hv as [? _].
Qed.

(** A parameter that leaves no entry in the filters could as well be
    absent: such is a [sortBy] or [sortOrder] outside its enumeration. *)
Lemma getMarkets_filters_dropped q k :
  spec_filter_entry q k = None ->
  getMarkets_filters q = getMarkets_filters (delete k q).
Proof.
  intros Hk. apply map_eq. intros k'.
  rewrite !getMarkets_filters_lookup.
  destruct (decide (k' = k)) as [->|Hne].
  - rewrite Hk. unfold spec_filter_entry. by rewrite lookup_delete_eq.
  - unfold spec_filter_entry. by rewrite lookup_delete_ne.
Qed.

End Filters.

(** ** Properties of the handlers *)

Section Handlers.

Context {World Market MarketList MarketResponseDto MarketListResponseDto : Type}.
Variable dto : MarketDto (Market := Market) (MarketList := MarketList)
                 (MarketResponseDto := MarketResponseDto)
                 (MarketListResponseDto := MarketListResponseDto).

Implicit Types
  (this : MarketController (World := World) (Market := Market) (MarketList := MarketList))
  (req : Request) (w : World) (e : Thrown).

Local Ltac unfold_handler :=
  unfold run, getMarkets, getMarketById, tryCatch, bind, await, lift,
    res_status_json, stringify, console_error, emit; simpl.

(** Case analysis on what the use case, the mapping of its result and the
    serialisation of the DTO do. *)
Local Ltac collaborator_cases :=
  repeat match goal with
         | |- context [execute ?u ?i ?w] =>
             let E := fresh "Hexecute" in
             destruct (execute u i w) as [[?result|?thrown] ?w'] eqn:E; simpl
         | |- context [marketListToDto ?d ?r] =>
             let E := fresh "HtoDto" in
             destruct (marketListToDto d r) as [?response|?thrown] eqn:E; simpl
         | |- context [marketToDto ?d ?r] =>
             let E := fresh "HtoDto" in
             destruct (marketToDto d r) as [?response|?thrown] eqn:E; simpl
         | |- context [marketListJsonError ?d ?r] =>
             let E := fresh "Hjson" in
             destruct (marketListJsonError d r) as [?typeError|] eqn:E; simpl
         | |- context [marketJsonError ?d ?r] =>
             let E := fresh "Hjson" in
             destruct (marketJsonError d r) as [?typeError|] eqn:E; simpl
         end.

(** The list handler invokes its use case once, with the filters built
    from the query, whatever happens next. *)
Lemma getMarkets_invocations this req w :
  invocations (trace (snd (run (getMarkets dto this req) w)))
  = [GetMarketsExecute (getMarkets_filters (query req))].
Proof. unfold_handler. by collaborator_cases. Qed.

(** The list handler answers once, with 200 or 500. *)
Lemma getMarkets_responses this req w :
  exists env,
    responses (trace (snd (run (getMarkets dto this req) w))) = [env]
    /\ (status env = 200 \/ status env = 500).
Proof. unfold_handler. collaborator_cases; eexists; split; by eauto. Qed.

(** With an identifier, the item handler invokes its use case once, with
    that identifier. *)
Lemma getMarketById_invocations this req w (market_id : string) :
  params req !! "market_id" = Some market_id ->
  market_id <> "" ->
  invocations (trace (snd (run (getMarketById dto this req) w)))
  = [GetMarketByIdExecute market_id].
Proof.
  intros Hid Hne. unfold_handler. rewrite Hid.
  destruct market_id as [|a s]; [done|]. simpl.
  collaborator_cases; by try destruct thrown.
Qed.

(** With an identifier, the item handler answers once, with 200, 404 or
    500. *)
Lemma getMarketById_responses this req w (market_id : string) :
  params req !! "market_id" = Some market_id ->
  market_id <> "" ->
  exists env,
    responses (trace (snd (run (getMarketById dto this req) w))) = [env]
    /\ (status env = 200 \/ status env = 404 \/ status env = 500).
Proof.
  intros Hid Hne. unfold_handler. rewrite Hid.
  destruct market_id as [|a s]; [done|]. simpl.
  collaborator_cases; try destruct thrown; eexists; split; by eauto.
Qed.

(** The list handler looks at the query through the filters only. *)
Lemma getMarkets_same_filters this req req' w :
  getMarkets_filters (query req) = getMarkets_filters (query req') ->
  run (getMarkets dto this req) w = run (getMarkets dto this req') w.
Proof. intros Heq. unfold_handler. by rewrite Heq. Qed.

(** The list handler leaves the world as its one call of the use case, on
    the filters, left it. *)
Lemma getMarkets_world this req w :
  world (snd (run (getMarkets dto this req) w))
  = snd (execute (getMarketsUseCase this) (getMarkets_filters (query req)) w).
Proof. unfold_handler. by collaborator_cases. Qed.

Lemma getMarketById_world this req w (market_id : string) :
  params req !! "market_id" = Some market_id ->
  market_id <> "" ->
  world (snd (run (getMarketById dto this req) w))
  = snd (execute (getMarketByIdUseCase this) market_id w).
Proof.
  intros Hid Hne. unfold_handler. rewrite Hid.
  destruct market_id as [|a s]; [done|]. simpl.
  collaborator_cases; by try destruct thrown.
Qed.

(** The envelope of the list handler depends on the world through the
    outcome of its one call of the use case only. *)
Lemma getMarkets_same_outcome this req w w' :
  fst (execute (getMarketsUseCase this) (getMarkets_filters (query req)) w)
  = fst (execute (getMarketsUseCase this) (getMarkets_filters (query req)) w') ->
  responses (trace (snd (run (getMarkets dto this req) w)))
  = responses (trace (snd (run (getMarkets dto this req) w'))).
Proof.
  intros Hsame. unfold_handler.
  destruct (execute _ _ w) as [o1 w1], (execute _ _ w') as [o2 w2].
  simpl in Hsame. subst o2.
  destruct o1 as [result|thrown]; simpl; [|done].
  by collaborator_cases.
Qed.

Lemma getMarketById_same_outcome this req w w' :
  (forall market_id : string,
      params req !! "market_id" = Some market_id ->
      market_id <> "" ->
      fst (execute (getMarketByIdUseCase this) market_id w)
      = fst (execute (getMarketByIdUseCase this) market_id w')) ->
  responses (trace (snd (run (getMarketById dto this req) w)))
  = responses (trace (snd (run (getMarketById dto this req) w'))).
Proof.
  intros Hsame. unfold_handler.
  destruct (params req !! "market_id") as [[|a s]|]; simpl; [done| |done].
  specialize (Hsame (String a s) eq_refl ltac:(done)).
  destruct (execute _ _ w) as [o1 w1], (execute _ _ w') as [o2 w2].
  simpl in Hsame. subst o2.
  destruct o1 as [result|thrown]; simpl; [|by destruct thrown].
  collaborator_cases; by try destruct thrown.
Qed.

(** *** Error handling of [getMarketById] and [getMarkets] *)

(** C1: when the path parameter [market_id] is absent or the empty string,
    [getMarketById] answers once, with status 400 and the body
    [{error: "Market ID is required"}] that has no [message], and the
    use case is not invoked: no call is recorded and the world is as it
    was. *)
Theorem getMarketById_requires_id this req w :
  params req !! "market_id" = None \/ params req !! "market_id" = Some "" ->
  let st := snd (run (getMarketById dto this req) w) in
  responses (trace st)
  = [{| status := 400;
        body := ErrorBody {| error := "Market ID is required"; message := None |} |}]
  /\ invocations (trace st) = []
  /\ world st = w.
Proof. intros [Hid|Hid]; unfold_handler; by rewrite Hid. Qed.

(** C2: with a non-empty identifier, when the use case throws a
    [NotFoundError] with message [m], [getMarketById] answers once, with
    status 404 and the body [{error: "Market not found", message: m}]. *)
Theorem getMarketById_not_found this req w (market_id m : string) w' :
  params req !! "market_id" = Some market_id ->
  market_id <> "" ->
  execute (getMarketByIdUseCase this) market_id w = (Throws (NotFoundError m), w') ->
  responses (trace (snd (run (getMarketById dto this req) w)))
  = [{| status := 404;
        body := ErrorBody {| error := "Market not found"; message := Some m |} |}].
Proof.
  intros Hid Hne Hthrow. unfold_handler. rewrite Hid.
  destruct market_id as [|a s]; [done|]. simpl. by rewrite Hthrow.
Qed.

(** C3, as amended: a failure [e] of the collaborators that is not a
    [NotFoundError], in [getMarkets] or in [getMarketById] with a non-empty
    identifier, is answered once, with status 500 and the body
    [{error: "Internal server error", message: m}], where [m] is the
    message of [e] when [e] is an instance of [Error], and "Unknown error"
    when it is not, whether or not the thrown value has a [message]
    property of its own. *)
Theorem unclassified_failure_is_500 this req w e :
  (forall m, e <> NotFoundError m) ->
  let envelope :=
    {| status := 500;
       body := ErrorBody
                 {| error := "Internal server error";
                    message := Some match e with
                                    | Error m => m
                                    | _ => "Unknown error"
                                    end |} |} in
  (failure (getMarketsUseCase this) (marketListToDto dto)
     (getMarkets_filters (query req)) w = Some e ->
   responses (trace (snd (run (getMarkets dto this req) w))) = [envelope])
  /\ (forall market_id : string,
        params req !! "market_id" = Some market_id ->
        market_id <> "" ->
        failure (getMarketByIdUseCase this) (marketToDto dto) market_id w = Some e ->
        responses (trace (snd (run (getMarketById dto this req) w))) = [envelope]).
Proof.
  intros Hkind envelope. subst envelope. split.
  - unfold failure. unfold_handler. collaborator_cases; intros [= <-]; try done.
    all: destruct thrown; naive_solver.
  - intros market_id Hid Hne. unfold failure. unfold_handler. rewrite Hid.
    destruct market_id as [|a s]; [done|]. simpl.
    collaborator_cases; intros [= <-]; try done.
    all: destruct thrown; naive_solver.
Qed.

(** C4: [getMarkets] answers once and only with status 200 or 500;
    whatever the list use case throws, a [NotFoundError] too, gets the 500
    envelope [{error: "Internal server error", message: m}] with [m] the
    message of the thrown error, or "Unknown error" when the thrown value
    is not an [Error]: never 404, never 400. *)
Theorem getMarkets_status_200_or_500 this req w :
  exists env,
    responses (trace (snd (run (getMarkets dto this req) w))) = [env]
    /\ (status env = 200 \/ status env = 500)
    /\ (forall e w',
          execute (getMarketsUseCase this) (getMarkets_filters (query req)) w
          = (Throws e, w') ->
          env = {| status := 500;
                   body := ErrorBody
                             {| error := "Internal server error";
                                message := Some match e with
                                                | NotFoundError m | Error m => m
                                                | NonError _ => "Unknown error"
                                                end |} |}).
Proof.
  unfold_handler. collaborator_cases; eexists; (split; [done|]); simpl.
  all: split; [by eauto|]; intros e w1 [=]; subst; by try destruct e.
Qed.

(** *** The filters handed to the list use case *)

(** C5: the filters [getMarkets] passes to the list use case have no key
    besides [status], [creatorId], [limit], [offset], [sortBy] and
    [sortOrder]; a key is there only if the query parameter of that name
    is present and not the empty string; a key that is not one of the six
    is never there. *)
Theorem filters_only_recognised_keys this req w :
  exists filters : MarketFilters,
    invocations (trace (snd (run (getMarkets dto this req) w)))
    = [GetMarketsExecute filters]
    /\ dom filters ⊆ recognised
    /\ (forall k : string,
          k ∈ dom filters -> exists s : string, query req !! k = Some s /\ s <> "")
    /\ (forall k : string, k ∉ recognised -> filters !! k = None).
Proof.
  exists (getMarkets_filters (query req)).
  split; [apply getMarkets_invocations|].
  split; [apply getMarkets_filters_dom|]. split.
  - intros k [v Hv]%elem_of_dom. rewrite getMarkets_filters_lookup in Hv.
    by apply spec_filter_entry_Some in Hv as [_ ?].
  - intros k Hk. apply not_elem_of_dom. intros Hdom.
    apply Hk. by apply (getMarkets_filters_dom (query req)).
Qed.

(** C6: the filters hold [sortBy] only with the supplied value, and only
    when that is exactly "createTms" or "resolutionTime"; they hold
    [sortOrder] only with the supplied value, and only when that is
    exactly "asc" or "desc". Any other supplied value is dropped without
    an error: the key is left out, and the handler does what it does for
    the request without that parameter. *)
Theorem sort_parameters_enumerated_or_dropped this req w :
  exists filters : MarketFilters,
    invocations (trace (snd (run (getMarkets dto this req) w)))
    = [GetMarketsExecute filters]
    /\ (forall v, filters !! "sortBy" = Some v ->
          exists s : string,
            query req !! "sortBy" = Some s /\ v = FString s
            /\ (s = "createTms" \/ s = "resolutionTime"))
    /\ (forall v, filters !! "sortOrder" = Some v ->
          exists s : string,
            query req !! "sortOrder" = Some s /\ v = FString s
            /\ (s = "asc" \/ s = "desc"))
    /\ (forall s : string,
          query req !! "sortBy" = Some s ->
          s <> "createTms" -> s <> "resolutionTime" ->
          filters !! "sortBy" = None
          /\ run (getMarkets dto this req) w
             = run (getMarkets dto this (without "sortBy" req)) w)
    /\ (forall s : string,
          query req !! "sortOrder" = Some s ->
          s <> "asc" -> s <> "desc" ->
          filters !! "sortOrder" = None
          /\ run (getMarkets dto this req) w
             = run (getMarkets dto this (without "sortOrder" req)) w).
Proof.
  exists (getMarkets_filters (query req)).
  split; [apply getMarkets_invocations|].
  assert (forall s : string,
             query req !! "sortBy" = Some s ->
             s <> "createTms" -> s <> "resolutionTime" ->
             spec_filter_entry (query req) "sortBy" = None) as HsortBy.
  { intros s Hs H1 H2. unfold spec_filter_entry. rewrite Hs. simpl.
    destruct s; [done|]. by rewrite !bool_decide_eq_false_2. }
  assert (forall s : string,
             query req !! "sortOrder" = Some s ->
             s <> "asc" -> s <> "desc" ->
             spec_filter_entry (query req) "sortOrder" = None) as HsortOrder.
  { intros s Hs H1 H2. unfold spec_filter_entry. rewrite Hs. simpl.
    destruct s; [done|]. by rewrite !bool_decide_eq_false_2. }
  repeat split.
  - intros v. rewrite getMarkets_filters_lookup. unfold spec_filter_entry.
    destruct (query req !! "sortBy") as [[|a s]|]; simpl; [done| |done].
    repeat case_bool_decide; simpl; intros [= <-]; eexists; eauto.
  - intros v. rewrite getMarkets_filters_lookup. unfold spec_filter_entry.
    destruct (query req !! "sortOrder") as [[|a s]|]; simpl; [done| |done].
    repeat case_bool_decide; simpl; intros [= <-]; eexists; eauto.
  - rewrite getMarkets_filters_lookup. eauto.
  - apply getMarkets_same_filters. simpl.
    eapply getMarkets_filters_dropped; eauto.
  - rewrite getMarkets_filters_lookup. eauto.
  - apply getMarkets_same_filters. simpl.
    eapply getMarkets_filters_dropped; eauto.
Qed.

(** C7: a non-empty [limit] or [offset] query parameter [s] is stored in
    the filters as [parseInt(s)], whatever number that is, and the use case
    is run on these filters: the world after the request is the one the
    use case leaves when executed on them. When [s] does not parse, [NaN]
    is what is stored and what the use case is run on, and the answer is
    the one the outcome of the use case leads to (200 or 500), not a
    client error. *)
Theorem limit_offset_parsed_and_forwarded this req w (k s : string) :
  k = "limit" \/ k = "offset" ->
  query req !! k = Some s ->
  s <> "" ->
  exists filters : MarketFilters,
    invocations (trace (snd (run (getMarkets dto this req) w)))
    = [GetMarketsExecute filters]
    /\ world (snd (run (getMarkets dto this req) w))
       = snd (execute (getMarketsUseCase this) filters w)
    /\ filters !! k = Some (FNumber (JS.parseInt s))
    /\ (JS.parseInt s = JS.NaN -> filters !! k = Some (FNumber JS.NaN))
    /\ (forall env,
          env ∈ responses (trace (snd (run (getMarkets dto this req) w))) ->
          status env = 200 \/ status env = 500)
    /\ (forall e,
          fst (execute (getMarketsUseCase this) filters w) = Throws e ->
          forall env,
            env ∈ responses (trace (snd (run (getMarkets dto this req) w))) ->
            status env = 500)
    /\ (forall result response,
          fst (execute (getMarketsUseCase this) filters w) = Returns result ->
          marketListToDto dto result = Returns response ->
          marketListJsonError dto response = None ->
          responses (trace (snd (run (getMarkets dto this req) w)))
          = [{| status := 200; body := MarketListBody response |}]).
Proof.
  intros Hk Hs Hne.
  exists (getMarkets_filters (query req)).
  split; [apply getMarkets_invocations|].
  split; [apply getMarkets_world|].
  assert (getMarkets_filters (query req) !! k = Some (FNumber (JS.parseInt s)))
    as Hstored.
  { rewrite getMarkets_filters_lookup. unfold spec_filter_entry. rewrite Hs.
    destruct s; [done|]. by destruct Hk as [-> | ->]. }
  split; [done|]. split; [by intros <-|]. split; [|split].
  - destruct (getMarkets_responses this req w) as (env & -> & Hstatus).
    by intros env' ->%list_elem_of_singleton.
  - intros e. unfold_handler.
    destruct (execute _ _ w) as [o w']. simpl. intros ->. simpl.
    by intros env ->%list_elem_of_singleton.
  - intros result response. unfold_handler.
    destruct (execute _ _ w) as [o w']. simpl. intros -> -> ->. done.
Qed.

(** *** Safety and determinism *)

(** C8: neither handler throws: for every request and whatever the use
    case and the mapping do, [getMarkets] and [getMarketById] return, and
    have answered exactly once. *)
Theorem handlers_never_throw this req w :
  (exists st env,
      run (getMarkets dto this req) w = (Returns tt, st)
      /\ responses (trace st) = [env])
  /\ (exists st env,
        run (getMarketById dto this req) w = (Returns tt, st)
        /\ responses (trace st) = [env]).
Proof.
  split; unfold_handler.
  - collaborator_cases; by eauto.
  - destruct (JS.truthy (params req !! "market_id")); simpl; [|by eauto].
    collaborator_cases; try destruct thrown; by eauto.
Qed.

(** C9: a handler called twice with the same request, the second call in
    the world the first one left, answers with the same envelopes, the same
    status and the same body, when the use case gives on the second call
    the result or the failure it gave on the first. *)
Theorem handlers_deterministic this req w :
  (let first := run (getMarkets dto this req) w in
   let second := run (getMarkets dto this req) (world (snd first)) in
   fst (execute (getMarketsUseCase this) (getMarkets_filters (query req)) w)
   = fst (execute (getMarketsUseCase this) (getMarkets_filters (query req))
            (world (snd first))) ->
   responses (trace (snd first)) = responses (trace (snd second)))
  /\ (let first := run (getMarketById dto this req) w in
      let second := run (getMarketById dto this req) (world (snd first)) in
      (forall market_id : string,
          params req !! "market_id" = Some market_id ->
          market_id <> "" ->
          fst (execute (getMarketByIdUseCase this) market_id w)
          = fst (execute (getMarketByIdUseCase this) market_id
                   (world (snd first)))) ->
      responses (trace (snd first)) = responses (trace (snd second))).
Proof.
  split; cbv zeta.
  - apply getMarkets_same_outcome.
  - apply getMarketById_same_outcome.
Qed.

(** C10: every identifier that is not the empty string, one made of blanks
    only too, goes to the use case as it is, neither trimmed nor checked
    for a format: the use case is run on that very string, the world after
    the request being the one the use case leaves when executed on it, and
    the answer is not a 400. *)
Theorem getMarketById_forwards_verbatim this req w (market_id : string) :
  params req !! "market_id" = Some market_id ->
  market_id <> "" ->
  invocations (trace (snd (run (getMarketById dto this req) w)))
  = [GetMarketByIdExecute market_id]
  /\ world (snd (run (getMarketById dto this req) w))
     = snd (execute (getMarketByIdUseCase this) market_id w)
  /\ (forall result response,
        fst (execute (getMarketByIdUseCase this) market_id w) = Returns result ->
        marketToDto dto result = Returns response ->
        marketJsonError dto response = None ->
        responses (trace (snd (run (getMarketById dto this req) w)))
        = [{| status := 200; body := MarketBody response |}])
  /\ (forall env,
        env ∈ responses (trace (snd (run (getMarketById dto this req) w))) ->
        status env <> 400).
Proof.
  intros Hid Hne. split; [by apply getMarketById_invocations|].
  split; [by apply getMarketById_world|]. split.
  - intros result response. unfold_handler. rewrite Hid.
    destruct market_id as [|a s]; [done|]. simpl.
    destruct (execute _ _ w) as [o w']. simpl. intros -> -> ->. done.
  - destruct (getMarketById_responses this req w market_id Hid Hne)
      as (env & -> & Hstatus).
    intros env' ->%list_elem_of_singleton. lia.
Qed.

End Handlers.

(** ** Runs of the handlers *)

Example filters_of_full_query :
  getMarkets_filters
    (list_to_map [("limit", "10"); ("offset", "0");
                  ("sortBy", "createTms"); ("sortOrder", "desc")])
  = list_to_map [("limit", FNumber (JS.Finite false 10));
                 ("offset", FNumber (JS.Finite false 0));
                 ("sortBy", FString "createTms");
                 ("sortOrder", FString "desc")].
Proof. vm_compute. reflexivity. Qed.

Example filters_drop_what_is_not_recognised :
  getMarkets_filters
    (list_to_map [("status", "open"); ("page", "2"); ("creatorId", "");
                  ("sortBy", "name"); ("sortOrder", "DESC")])
  = {[ "status" := FString "open" ]}.
Proof. vm_compute. reflexivity. Qed.

Example getMarkets_full_query :
  run (getMarkets Double.dto Double.controller
         (Double.listRequest [("limit", "10"); ("offset", "0");
                              ("sortBy", "createTms"); ("sortOrder", "desc")])) 0
  = (Returns tt,
     {| world := 1;
        trace :=
          [Invoke (GetMarketsExecute
                     (list_to_map [("limit", FNumber (JS.Finite false 10));
                                   ("offset", FNumber (JS.Finite false 0));
                                   ("sortBy", FString "createTms");
                                   ("sortOrder", FString "desc")]));
           Respond {| status := 200; body := MarketListBody ["m0"] |}] |}).
Proof. vm_compute. reflexivity. Qed.

Example getMarkets_not_found_is_500 :
  run (getMarkets Double.dto (Double.failing (NotFoundError "no market"))
         (Double.listRequest [])) 0
  = (Returns tt,
     {| world := 1;
        trace :=
          [Invoke (GetMarketsExecute ∅);
           ConsoleError "Error fetching markets:" (NotFoundError "no market");
           Respond {| status := 500;
                      body := ErrorBody {| error := "Internal server error";
                                           message := Some "no market" |} |}] |}).
Proof. vm_compute. reflexivity. Qed.

Example getMarketById_undefined :
  run (getMarketById Double.dto Double.controller (Double.itemRequest None)) 0
  = (Returns tt,
     {| world := 0;
        trace :=
          [Respond {| status := 400;
                      body := ErrorBody {| error := "Market ID is required";
                                           message := None |} |}] |}).
Proof. vm_compute. reflexivity. Qed.

Example getMarketById_found :
  run (getMarketById Double.dto Double.controller (Double.itemRequest (Some "m0"))) 0
  = (Returns tt,
     {| world := 1;
        trace :=
          [Invoke (GetMarketByIdExecute "m0");
           Respond {| status := 200; body := MarketBody "Market zero" |}] |}).
Proof. vm_compute. reflexivity. Qed.

Example getMarketById_not_an_error :
  run (getMarketById Double.dto (Double.failing (NonError None))
         (Double.itemRequest (Some "m1"))) 0
  = (Returns tt,
     {| world := 1;
        trace :=
          [Invoke (GetMarketByIdExecute "m1");
           ConsoleError "Error fetching market by ID:" (NonError None);
           Respond {| status := 500;
                      body := ErrorBody {| error := "Internal server error";
                                           message := Some "Unknown error" |} |}] |}).
Proof. vm_compute. reflexivity. Qed.

(** ** The theorems at concrete requests *)

Lemma getMarketById_requires_id_witness :
  (params (Double.itemRequest (Some "")) !! "market_id" = None
   \/ params (Double.itemRequest (Some "")) !! "market_id" = Some "")
  /\ (let st := snd (run (getMarketById Double.dto Double.controller
                            (Double.itemRequest (Some ""))) 0) in
      responses (trace st)
      = [{| status := 400;
            body := ErrorBody {| error := "Market ID is required"; message := None |} |}]
      /\ invocations (trace st) = []
      /\ world st = 0).
Proof.
  split; [right; reflexivity|].
  apply getMarketById_requires_id. right; reflexivity.
Defined.

Lemma getMarketById_not_found_witness :
  params (Double.itemRequest (Some "m1")) !! "market_id" = Some "m1"
  /\ "m1" <> ""
  /\ execute (getMarketByIdUseCase Double.controller) "m1" 0
     = (Throws (NotFoundError "no market m1"), 1)
  /\ responses (trace (snd (run (getMarketById Double.dto Double.controller
                                   (Double.itemRequest (Some "m1"))) 0)))
     = [{| status := 404;
           body := ErrorBody {| error := "Market not found";
                                message := Some "no market m1" |} |}].
Proof.
  split; [reflexivity|]. split; [discriminate|]. split; [reflexivity|].
  apply (getMarketById_not_found Double.dto Double.controller
           (Double.itemRequest (Some "m1")) 0 "m1" "no market m1" 1);
    [reflexivity | discriminate | reflexivity].
Defined.

Lemma unclassified_failure_is_500_witness :
  (forall m, Error "db down" <> NotFoundError m)
  /\ failure (getMarketByIdUseCase (Double.failing (Error "db down")))
       (marketToDto Double.dto) "m1" 0 = Some (Error "db down")
  /\ responses (trace (snd (run (getMarketById Double.dto
                                   (Double.failing (Error "db down"))
                                   (Double.itemRequest (Some "m1"))) 0)))
     = [{| status := 500;
           body := ErrorBody {| error := "Internal server error";
                                message := Some "db down" |} |}].
Proof.
  split; [discriminate|]. split; [reflexivity|].
  apply (proj2 (unclassified_failure_is_500 Double.dto
                  (Double.failing (Error "db down"))
                  (Double.itemRequest (Some "m1")) 0 (Error "db down")
                  ltac:(discriminate)) "m1");
    [reflexivity | discriminate | reflexivity].
Defined.

Lemma getMarkets_status_200_or_500_witness :
  execute (getMarketsUseCase (Double.failing (NotFoundError "no market")))
    (getMarkets_filters (query (Double.listRequest []))) 0
  = (Throws (NotFoundError "no market"), 1)
  /\ responses (trace (snd (run (getMarkets Double.dto
                                   (Double.failing (NotFoundError "no market"))
                                   (Double.listRequest [])) 0)))
     = [{| status := 500;
           body := ErrorBody {| error := "Internal server error";
                                message := Some "no market" |} |}].
Proof.
  split; [reflexivity|].
  destruct (getMarkets_status_200_or_500 Double.dto
              (Double.failing (NotFoundError "no market"))
              (Double.listRequest []) 0) as (env & Hresponses & _ & Hthrows).
  rewrite Hresponses.
  rewrite (Hthrows (NotFoundError "no market") 1 eq_refl). reflexivity.
Defined.

Lemma limit_offset_parsed_and_forwarded_witness :
  ("limit" = "limit" \/ "limit" = "offset")
  /\ query (Double.listRequest [("limit", "abc")]) !! "limit" = Some "abc"
  /\ "abc" <> ""
  /\ JS.parseInt "abc" = JS.NaN
  /\ exists filters : MarketFilters,
       world (snd (run (getMarkets Double.dto Double.spy
                          (Double.listRequest [("limit", "abc")])) []))
       = [GetMarketsExecute filters]
       /\ filters !! "limit" = Some (FNumber JS.NaN).
Proof.
  split; [left; reflexivity|]. split; [reflexivity|]. split; [discriminate|].
  split; [reflexivity|].
  destruct (limit_offset_parsed_and_forwarded Double.dto Double.spy
              (Double.listRequest [("limit", "abc")]) [] "limit" "abc"
              (or_introl eq_refl) eq_refl ltac:(discriminate))
    as (filters & _ & Hworld & _ & HNaN & _).
  exists filters. split; [exact Hworld|]. apply HNaN. reflexivity.
Defined.

Lemma handlers_deterministic_witness :
  let store : gmap string string := {[ "m0" := "Market zero" ]} in
  let first := run (getMarketById Double.dto Double.reading
                      (Double.itemRequest (Some "m0"))) store in
  let second := run (getMarketById Double.dto Double.reading
                       (Double.itemRequest (Some "m0"))) (world (snd first)) in
  (forall market_id : string,
      params (Double.itemRequest (Some "m0")) !! "market_id" = Some market_id ->
      market_id <> "" ->
      fst (execute (getMarketByIdUseCase Double.reading) market_id store)
      = fst (execute (getMarketByIdUseCase Double.reading) market_id
               (world (snd first))))
  /\ responses (trace (snd first)) = responses (trace (snd second)).
Proof.
  cbv zeta.
  assert (forall market_id : string,
             params (Double.itemRequest (Some "m0")) !! "market_id"
             = Some market_id ->
             market_id <> "" ->
             fst (execute (getMarketByIdUseCase Double.reading) market_id
                    {[ "m0" := "Market zero" ]})
             = fst (execute (getMarketByIdUseCase Double.reading) market_id
                      (world (snd (run (getMarketById Double.dto Double.reading
                                          (Double.itemRequest (Some "m0")))
                                     {[ "m0" := "Market zero" ]})))))
    as Hsame by (intros market_id _ _; reflexivity).
  split; [exact Hsame|].
  exact (proj2 (handlers_deterministic Double.dto Double.reading
                  (Double.itemRequest (Some "m0")) {[ "m0" := "Market zero" ]})
           Hsame).
Defined.

Lemma getMarketById_forwards_verbatim_witness :
  params (Double.itemRequest (Some " ")) !! "market_id" = Some " "
  /\ " " <> ""
  /\ world (snd (run (getMarketById Double.dto Double.spy
                        (Double.itemRequest (Some " "))) []))
     = [GetMarketByIdExecute " "]
  /\ (forall env,
        env ∈ responses (trace (snd (run (getMarketById Double.dto Double.spy
                                            (Double.itemRequest (Some " "))) []))) ->
        status env <> 400).
Proof.
  split; [reflexivity|]. split; [discriminate|].
  destruct (getMarketById_forwards_verbatim Double.dto Double.spy
              (Double.itemRequest (Some " ")) [] " " eq_refl ltac:(discriminate))
    as (_ & Hworld & _ & Hstatus).
  split; [exact Hworld | exact Hstatus].
Defined.

(** The thrown object [{message: "db down"}] carries a message and is no
    [Error]: the body says "Unknown error", not "db down". *)
Lemma unclassified_failure_message_counterexample :
  let e := NonError (Some "db down") in
  let answer :=
    responses (trace (snd (run (getMarketById Double.dto (Double.failing e)
                                  (Double.itemRequest (Some "m1"))) 0))) in
  (forall m, e <> NotFoundError m)
  /\ failure (getMarketByIdUseCase (Double.failing e))
       (marketToDto Double.dto) "m1" 0 = Some e
  /\ carriedMessage e = Some "db down"
  /\ answer = [{| status := 500;
                  body := ErrorBody {| error := "Internal server error";
                                       message := Some "Unknown error" |} |}]
  /\ answer <> [{| status := 500;
                   body := ErrorBody {| error := "Internal server error";
                                        message := carriedMessage e |} |}].
Proof.
  cbv zeta. split; [discriminate|]. split; [reflexivity|].
  split; [reflexivity|]. split; [reflexivity|].
  vm_compute. discriminate.
Qed.

(** ** Decimal numerals under [parseInt] *)

Section Numerals.

Implicit Types (R : N) (acc : option N) (s t : string) (d : Decimal.uint).

Lemma parseDigits_step R acc c (digit : N) s :
  JS.radixDigit R c = Some digit ->
  JS.parseDigits R acc (String c s)
  = JS.parseDigits R (Some (default 0%N acc * R + digit)%N) s.
Proof. intros H. simpl. by rewrite H. Qed.

Lemma parseDigits_stop R acc s :
  match s with
  | EmptyString => True
  | String c _ => JS.radixDigit R c = None
  end ->
  JS.parseDigits R acc s = acc.
Proof. destruct s as [|c s]; simpl; [done|]. by intros ->. Qed.

Local Ltac decimal_digit :=
  match goal with
  | |- context [String ?c ?x +:+ ?t] =>
      change (String c x +:+ t) with (String c (x +:+ t));
      rewrite (parseDigits_step 10 _ c (N_of_ascii c - 48)) by reflexivity
  end.

(** Reading the digits of [d] goes on from the number read so far the way
    [Pos.of_uint_acc] does. *)
Lemma parseDigits_decimal_acc d (p : positive) t :
  JS.parseDigits 10 (Some (Npos p)) (NilEmpty.string_of_uint d +:+ t)
  = JS.parseDigits 10 (Some (Npos (Pos.of_uint_acc d p))) t.
Proof.
  revert p.
  induction d as [|d IH|d IH|d IH|d IH|d IH|d IH|d IH|d IH|d IH|d IH];
    intros p; [done|..].
  all: cbn [NilEmpty.string_of_uint Pos.of_uint_acc]; decimal_digit.
  all: rewrite <- IH; do 2 f_equal; cbn; lia.
Qed.

Lemma parseDigits_decimal d acc t :
  d <> Decimal.Nil ->
  default 0%N acc = 0%N ->
  JS.parseDigits 10 acc (NilEmpty.string_of_uint d +:+ t)
  = JS.parseDigits 10 (Some (N.of_uint d)) t.
Proof.
  intros Hd Hacc. revert acc Hacc.
  induction d as [|d IH|d IH|d IH|d IH|d IH|d IH|d IH|d IH|d IH|d IH];
    intros acc Hacc; [done|..].
  all: cbn [NilEmpty.string_of_uint N.of_uint Pos.of_uint]; decimal_digit;
    rewrite Hacc.
  2-10: by rewrite <- parseDigits_decimal_acc.
  destruct d; [done|..]; by apply IH.
Qed.

Lemma trimStart_ascii c s :
  (JS.code c < 128)%N ->
  JS.isWhiteSpace1 c = false ->
  JS.trimStart (String c s) = String c s.
Proof.
  intros Hc Hblank. simpl. rewrite Hblank.
  assert (forall n, (128 <= n)%N -> (JS.code c =? n)%N = false) as Hne
    by (intros n Hn; apply N.eqb_neq; lia).
  destruct s as [|c2 [|c3 s]]; [done|..].
  - unfold JS.isWhiteSpace2. by rewrite Hne by lia.
  - unfold JS.isWhiteSpace2, JS.isWhiteSpace3. by rewrite !Hne by lia.
Qed.

Lemma string_of_uint_head d :
  d <> Decimal.Nil ->
  exists c s,
    NilEmpty.string_of_uint d = String c s /\ (48 <= JS.code c <= 57)%N.
Proof.
  destruct d; [done|..]; intros _; simpl; do 2 eexists; (split; [done|]);
    vm_compute; split; discriminate.
Qed.

Lemma toDouble_exact negative n :
  (n < 2 ^ 53)%N -> JS.toDouble negative n = JS.Finite negative n.
Proof. intros Hn. unfold JS.toDouble. by apply N.ltb_lt in Hn as ->. Qed.

(** An optional minus sign, decimal digits, and then text that does not go
    on with a digit: the digits are read in base ten, leading zeros and
    all, and the rest is ignored. *)
Lemma parseInt_decimal (negative : bool) d t :
  d <> Decimal.Nil ->
  stops_number t ->
  JS.parseInt ((if negative then "-" else "") +:+ NilEmpty.string_of_uint d +:+ t)
  = JS.toDouble negative (N.of_uint d).
Proof.
  intros Hd Ht.
  assert (JS.parseDigits 10 None (NilEmpty.string_of_uint d +:+ t)
          = Some (N.of_uint d)) as Hdigits.
  { rewrite parseDigits_decimal by done. apply parseDigits_stop.
    destruct t; [done|]. by destruct Ht. }
  assert (JS.stripPrefix (NilEmpty.string_of_uint d +:+ t)
          = (10%N, NilEmpty.string_of_uint d +:+ t)) as Hprefix.
  { destruct d as [|d|d|d|d|d|d|d|d|d|d]; try done.
    destruct d; try done. simpl.
    destruct t as [|c t]; [done|]. destruct Ht as (_ & Hx & HX).
    simpl. destruct (decide (c = "x"%char)) as [->|]; [done|].
    destruct (decide (c = "X"%char)) as [->|]; [done|].
    destruct c as [[] [] [] [] [] [] [] []]; done. }
  destruct (string_of_uint_head d Hd) as (c & s & Hs & Hc).
  assert (JS.stripSign (NilEmpty.string_of_uint d +:+ t)
          = (false, NilEmpty.string_of_uint d +:+ t)) as Hsign.
  { destruct d; done. }
  assert (JS.trimStart (NilEmpty.string_of_uint d +:+ t)
          = NilEmpty.string_of_uint d +:+ t) as Htrim.
  { rewrite Hs. change (String c s +:+ t) with (String c (s +:+ t)).
    apply trimStart_ascii; [lia|]. unfold JS.isWhiteSpace1.
    apply orb_false_iff. split.
    - apply andb_false_iff. right. apply N.leb_gt. lia.
    - apply N.eqb_neq. lia. }
  unfold JS.parseInt. destruct negative.
  - change ("-" +:+ NilEmpty.string_of_uint d +:+ t)
      with (String "-" (NilEmpty.string_of_uint d +:+ t)).
    rewrite trimStart_ascii by (vm_compute; done).
    cbn [JS.stripSign]. by rewrite Hprefix, Hdigits.
  - change ("" +:+ NilEmpty.string_of_uint d +:+ t)
      with (NilEmpty.string_of_uint d +:+ t).
    by rewrite Htrim, Hsign, Hprefix, Hdigits.
Qed.

Lemma append_empty_r s : s +:+ "" = s.
Proof.
  induction s as [|c s IH]; [done|].
  change (String c (s +:+ "") = String c s). by rewrite IH.
Qed.

Lemma to_uint_nonnil n : N.to_uint n <> Decimal.Nil.
Proof. destruct n; [done|]. apply DecimalPos.Unsigned.to_uint_nonnil. Qed.

Lemma parseInt_numeral (negative : bool) n t :
  stops_number t ->
  JS.parseInt ((if negative then "-" else "") +:+ numeral n +:+ t)
  = JS.toDouble negative n.
Proof.
  intros Ht. unfold numeral.
  rewrite parseInt_decimal by auto using to_uint_nonnil.
  by rewrite DecimalN.Unsigned.of_to.
Qed.

Lemma parseInt_numeral_plain n t :
  stops_number t -> JS.parseInt (numeral n +:+ t) = JS.toDouble false n.
Proof. exact (parseInt_numeral false n t). Qed.

Lemma parseInt_numeral_minus n t :
  stops_number t -> JS.parseInt ("-" +:+ numeral n +:+ t) = JS.toDouble true n.
Proof. exact (parseInt_numeral true n t). Qed.

Lemma numeral_nonempty n t : numeral n +:+ t <> "".
Proof.
  unfold numeral.
  destruct (string_of_uint_head (N.to_uint n) (to_uint_nonnil n))
    as (c & s & -> & _).
  done.
Qed.

End Numerals.

(** ** Laws of the filters *)

Section FilterLaws.

Implicit Types (q : gmap string string) (k : string) (v : FilterValue).

Lemma spec_filter_entry_local q q' k :
  q !! k = q' !! k -> spec_filter_entry q k = spec_filter_entry q' k.
Proof. unfold spec_filter_entry. by intros ->. Qed.

Lemma spec_filter_entry_unrecognised q k :
  k ∉ recognised -> spec_filter_entry q k = None.
Proof.
  intros Hk. destruct (spec_filter_entry q k) as [v|] eqn:Hv; [|done].
  by apply spec_filter_entry_Some in Hv as [? _].
Qed.

Lemma getMarkets_filters_agree q q' :
  (forall k, k ∈ recognised -> q !! k = q' !! k) ->
  getMarkets_filters q = getMarkets_filters q'.
Proof.
  intros Hagree. apply map_eq. intros k.
  rewrite !getMarkets_filters_lookup.
  destruct (decide (k ∈ recognised)) as [Hk|Hk].
  - by apply spec_filter_entry_local, Hagree.
  - by rewrite !spec_filter_entry_unrecognised.
Qed.

(** X9: taking a parameter out of the query takes exactly its entry out of
    the filters. *)
Theorem getMarkets_filters_delete q k :
  getMarkets_filters (delete k q) = delete k (getMarkets_filters q).
Proof.
  apply map_eq. intros k'.
  rewrite getMarkets_filters_lookup.
  destruct (decide (k = k')) as [<-|Hne].
  - rewrite lookup_delete_eq. unfold spec_filter_entry.
    by rewrite lookup_delete_eq.
  - rewrite lookup_delete_ne, getMarkets_filters_lookup by done.
    apply spec_filter_entry_local. by rewrite lookup_delete_ne.
Qed.

(** X10: the parameters are handled one by one: the filters of two queries
    put together, when these share no parameter, are the filters of the one
    and the filters of the other put together. *)
Theorem getMarkets_filters_union q1 q2 :
  q1 ##ₘ q2 ->
  getMarkets_filters (q1 ∪ q2) = getMarkets_filters q1 ∪ getMarkets_filters q2.
Proof.
  intros Hdisjoint. apply map_eq. intros k.
  rewrite lookup_union, !getMarkets_filters_lookup.
  destruct (q1 !! k) as [s|] eqn:H1.
  - assert (q2 !! k = None) as H2 by by eapply map_disjoint_Some_l.
    rewrite (spec_filter_entry_local (q1 ∪ q2) q1 k)
      by (by rewrite lookup_union, H1, H2).
    unfold spec_filter_entry at 3. rewrite H2.
    by destruct (spec_filter_entry q1 k).
  - rewrite (spec_filter_entry_local (q1 ∪ q2) q2 k)
      by (by rewrite lookup_union, H1, (left_id_L None _)).
    unfold spec_filter_entry at 2. rewrite H1.
    by destruct (spec_filter_entry q2 k).
Qed.

(** X11: [status] and [creatorId] go into the filters exactly when they are
    present and not empty, and then as they came: not trimmed, not checked
    against any list of values. *)
Theorem getMarkets_filters_verbatim q k v :
  k = "status" \/ k = "creatorId" ->
  getMarkets_filters q !! k = Some v
  <-> exists s : string, q !! k = Some s /\ s <> "" /\ v = FString s.
Proof.
  intros Hk. rewrite getMarkets_filters_lookup. unfold spec_filter_entry.
  destruct (q !! k) as [[|a s]|]; split; try done;
    try (intros (s' & ? & ? & ?); by simplify_eq).
  - destruct Hk as [-> | ->]; simpl; intros [= <-]; by eexists.
  - intros (s' & [= <-] & _ & ->). by destruct Hk as [-> | ->].
Qed.

(** X12: a [sortBy] that is "createTms" or "resolutionTime", and a
    [sortOrder] that is "asc" or "desc", is in the filters as it came. *)
Theorem getMarkets_filters_sort_kept q :
  (forall s : string,
      q !! "sortBy" = Some s ->
      s = "createTms" \/ s = "resolutionTime" ->
      getMarkets_filters q !! "sortBy" = Some (FString s))
  /\ (forall s : string,
        q !! "sortOrder" = Some s ->
        s = "asc" \/ s = "desc" ->
        getMarkets_filters q !! "sortOrder" = Some (FString s)).
Proof.
  split; intros s Hs Hvalid; rewrite getMarkets_filters_lookup;
    unfold spec_filter_entry; rewrite Hs; by destruct Hvalid as [-> | ->].
Qed.

(** X13: nothing in the filters is made up: every entry comes from the
    non-empty query parameter of the same name, a number as [parseInt] of
    it under [limit] and [offset], the string itself under the other
    keys. *)
Theorem getMarkets_filters_provenance q k v :
  getMarkets_filters q !! k = Some v ->
  exists s : string,
    q !! k = Some s /\ s <> ""
    /\ ((k = "limit" \/ k = "offset") /\ v = FNumber (JS.parseInt s)
        \/ k <> "limit" /\ k <> "offset" /\ v = FString s).
Proof.
  rewrite getMarkets_filters_lookup. unfold spec_filter_entry.
  destruct (q !! k) as [[|a s]|]; [done| |done].
  intros Hv. eexists. split; [done|]. split; [done|].
  repeat case_bool_decide; simplify_eq/=; try done; naive_solver.
Qed.

(** X14: when each of the six parameters is absent or empty, the filters
    are the empty object, whatever else the query holds. *)
Theorem getMarkets_filters_empty q :
  (forall k, k ∈ recognised -> q !! k = None \/ q !! k = Some "") ->
  getMarkets_filters q = ∅.
Proof.
  intros Hq. apply map_eq. intros k.
  rewrite getMarkets_filters_lookup, lookup_empty.
  destruct (decide (k ∈ recognised)) as [Hk|Hk].
  - unfold spec_filter_entry. by destruct (Hq k Hk) as [-> | ->].
  - by apply spec_filter_entry_unrecognised.
Qed.

Lemma getMarkets_filters_number q k (s : string) :
  k = "limit" \/ k = "offset" ->
  q !! k = Some s ->
  s <> "" ->
  getMarkets_filters q !! k = Some (FNumber (JS.parseInt s)).
Proof.
  intros Hk Hq Hs. rewrite getMarkets_filters_lookup.
  unfold spec_filter_entry. rewrite Hq.
  destruct s; [done|]. by destruct Hk as [-> | ->].
Qed.

(** X15: a [limit] or [offset] written as a decimal numeral below 2^53 is
    in the filters as that very number. *)
Theorem getMarkets_filters_decimal q k (n : N) :
  k = "limit" \/ k = "offset" ->
  q !! k = Some (numeral n) ->
  (n < 2 ^ 53)%N ->
  getMarkets_filters q !! k = Some (FNumber (JS.Finite false n)).
Proof.
  intros Hk Hq Hn.
  rewrite (getMarkets_filters_number q k (numeral n)); [|done..|].
  - rewrite <- (append_empty_r (numeral n)).
    by rewrite parseInt_numeral_plain, toDouble_exact.
  - rewrite <- (append_empty_r (numeral n)). apply numeral_nonempty.
Qed.

(** X16: there is no lower bound: a [limit] or [offset] written as a minus
    sign and a decimal numeral below 2^53 is in the filters as that
    negative number (as minus zero for "-0"). *)
Theorem getMarkets_filters_negative q k (n : N) :
  k = "limit" \/ k = "offset" ->
  q !! k = Some ("-" +:+ numeral n) ->
  (n < 2 ^ 53)%N ->
  getMarkets_filters q !! k = Some (FNumber (JS.Finite true n)).
Proof.
  intros Hk Hq Hn.
  rewrite (getMarkets_filters_number q k ("-" +:+ numeral n)); [|done..].
  rewrite <- (append_empty_r (numeral n)).
  by rewrite parseInt_numeral_minus, toDouble_exact.
Qed.

(** X17: what follows the digits of a [limit] or [offset] is ignored when
    it does not start with a digit (or with the x of a hexadecimal prefix):
    "12.5", "12 items" and "12," are all in the filters as 12. *)
Theorem getMarkets_filters_trailing_text q k (n : N) (t : string) :
  k = "limit" \/ k = "offset" ->
  q !! k = Some (numeral n +:+ t) ->
  stops_number t ->
  (n < 2 ^ 53)%N ->
  getMarkets_filters q !! k = Some (FNumber (JS.Finite false n)).
Proof.
  intros Hk Hq Ht Hn.
  rewrite (getMarkets_filters_number q k (numeral n +:+ t));
    [|done|done|apply numeral_nonempty].
  by rewrite parseInt_numeral_plain, toDouble_exact.
Qed.

End FilterLaws.

(** ** Further properties of the handlers *)

Section HandlerLaws.

Context {World Market MarketList MarketResponseDto MarketListResponseDto : Type}.
Variable dto : MarketDto (Market := Market) (MarketList := MarketList)
                 (MarketResponseDto := MarketResponseDto)
                 (MarketListResponseDto := MarketListResponseDto).

Implicit Types
  (this : MarketController (World := World) (Market := Market) (MarketList := MarketList))
  (req : Request) (w : World) (e : Thrown).

Local Ltac unfold_handler :=
  unfold run, getMarkets, getMarketById, tryCatch, bind, await, lift,
    res_status_json, stringify, console_error, emit; simpl.

Local Ltac collaborator_cases :=
  repeat match goal with
         | |- context [execute ?u ?i ?w] =>
             let E := fresh "Hexecute" in
             destruct (execute u i w) as [[?result|?thrown] ?w'] eqn:E; simpl
         | |- context [marketListToDto ?d ?r] =>
             let E := fresh "HtoDto" in
             destruct (marketListToDto d r) as [?response|?thrown] eqn:E; simpl
         | |- context [marketToDto ?d ?r] =>
             let E := fresh "HtoDto" in
             destruct (marketToDto d r) as [?response|?thrown] eqn:E; simpl
         | |- context [marketListJsonError ?d ?r] =>
             let E := fresh "Hjson" in
             destruct (marketListJsonError d r) as [?typeError|] eqn:E; simpl
         | |- context [marketJsonError ?d ?r] =>
             let E := fresh "Hjson" in
             destruct (marketJsonError d r) as [?typeError|] eqn:E; simpl
         end.

(** X1: when the list use case returns, the mapping of its result returns
    and the mapped list can be serialised, [getMarkets] has called the use
    case once with the filters of the query, has answered 200 with the
    mapped list, has logged nothing, and the world is the one the use case
    left. *)
Theorem getMarkets_success this req w result w' response :
  execute (getMarketsUseCase this) (getMarkets_filters (query req)) w
  = (Returns result, w') ->
  marketListToDto dto result = Returns response ->
  marketListJsonError dto response = None ->
  run (getMarkets dto this req) w
  = (Returns tt,
     {| world := w';
        trace := [Invoke (GetMarketsExecute (getMarkets_filters (query req)));
                  Respond {| status := 200; body := MarketListBody response |}] |}).
Proof.
  intros Hexecute HtoDto Hjson. unfold_handler.
  by rewrite Hexecute, HtoDto, Hjson.
Qed.

(** X2: with a non-empty identifier, when the use case returns, the
    mapping of its result returns and the mapped market can be serialised,
    [getMarketById] has called the use case once with the identifier, has
    answered 200 with the mapped market, has logged nothing, and the world
    is the one the use case left. *)
Theorem getMarketById_success this req w (market_id : string) result w' response :
  params req !! "market_id" = Some market_id ->
  market_id <> "" ->
  execute (getMarketByIdUseCase this) market_id w = (Returns result, w') ->
  marketToDto dto result = Returns response ->
  marketJsonError dto response = None ->
  run (getMarketById dto this req) w
  = (Returns tt,
     {| world := w';
        trace := [Invoke (GetMarketByIdExecute market_id);
                  Respond {| status := 200; body := MarketBody response |}] |}).
Proof.
  intros Hid Hne Hexecute HtoDto Hjson. unfold_handler. rewrite Hid.
  destruct market_id; [done|]. simpl. by rewrite Hexecute, HtoDto, Hjson.
Qed.

(** X3: a failure of the list path, of the use case or of the mapping, is
    logged once under "Error fetching markets:" with the thrown value
    itself, after the call of the use case and before the one answer. *)
Theorem getMarkets_failure_logged this req w e :
  failure (getMarketsUseCase this) (marketListToDto dto)
    (getMarkets_filters (query req)) w = Some e ->
  exists env,
    trace (snd (run (getMarkets dto this req) w))
    = [Invoke (GetMarketsExecute (getMarkets_filters (query req)));
       ConsoleError "Error fetching markets:" e;
       Respond env].
Proof.
  unfold failure. unfold_handler.
  collaborator_cases; intros [= <-]; by eexists.
Qed.

(** X4: with a non-empty identifier, a failure of the item path, a
    [NotFoundError] too, is logged once under
    "Error fetching market by ID:" with the thrown value itself, after the
    call of the use case and before the one answer. *)
Theorem getMarketById_failure_logged this req w (market_id : string) e :
  params req !! "market_id" = Some market_id ->
  market_id <> "" ->
  failure (getMarketByIdUseCase this) (marketToDto dto) market_id w = Some e ->
  exists env,
    trace (snd (run (getMarketById dto this req) w))
    = [Invoke (GetMarketByIdExecute market_id);
       ConsoleError "Error fetching market by ID:" e;
       Respond env].
Proof.
  intros Hid Hne. unfold failure. unfold_handler. rewrite Hid.
  destruct market_id; [done|]. simpl.
  collaborator_cases; intros [= <-]; destruct thrown; by eexists.
Qed.

(** X5: [getMarketById] answers 400 exactly when the path parameter is
    absent or the empty string. *)
Theorem getMarketById_400_iff this req w env :
  env ∈ responses (trace (snd (run (getMarketById dto this req) w))) ->
  status env = 400
  <-> params req !! "market_id" = None \/ params req !! "market_id" = Some "".
Proof.
  destruct (params req !! "market_id") as [market_id|] eqn:Hid.
  - destruct (decide (market_id = "")) as [->|Hne].
    + unfold_handler. rewrite Hid. simpl.
      intros ->%list_elem_of_singleton. simpl. by split; [right|].
    + destruct (getMarketById_responses dto this req w market_id Hid Hne)
        as (env' & -> & Hstatus).
      intros ->%list_elem_of_singleton. split; [lia|].
      intros [[=]|[=]]. done.
  - unfold_handler. rewrite Hid. simpl.
    intros ->%list_elem_of_singleton. simpl. by split; [left|].
Qed.

(** X6: [getMarketById] answers 404 exactly when, for a non-empty
    identifier, a [NotFoundError] is thrown, by the use case or by the
    mapping of its result; the body then carries the message of that
    error. *)
Theorem getMarketById_404_iff this req w env :
  env ∈ responses (trace (snd (run (getMarketById dto this req) w))) ->
  status env = 404
  <-> exists (market_id m : string),
        params req !! "market_id" = Some market_id
        /\ market_id <> ""
        /\ failure (getMarketByIdUseCase this) (marketToDto dto) market_id w
           = Some (NotFoundError m)
        /\ body env = ErrorBody {| error := "Market not found";
                                   message := Some m |}.
Proof.
  unfold failure. unfold_handler.
  destruct (params req !! "market_id") as [[|a s]|] eqn:Hid; simpl.
  1,3: intros ->%list_elem_of_singleton; simpl; split; [lia|];
       intros (? & ? & ? & ? & _); by simplify_eq.
  collaborator_cases; try destruct thrown; simpl;
    intros ->%list_elem_of_singleton; simpl;
    (split;
       [ intros Hstatus; simplify_eq/=; try lia;
         exists (String a s); eexists;
         rewrite Hexecute; simpl; rewrite ?HtoDto; done
       | intros (id & m & [= <-] & _ & Hfailure & _);
         rewrite Hexecute in Hfailure; simpl in Hfailure;
         rewrite ?HtoDto in Hfailure; by simplify_eq/= ]).
Qed.

(** X7: a handler answers 200 exactly when nothing is thrown: not by the
    use case, not by the mapping of its result, and not by [res.json] for
    a DTO that cannot be serialised. So it is for [getMarkets] on every
    request, and for [getMarketById] on a request with a non-empty
    identifier. *)
Theorem status_200_iff_no_failure this req w :
  (forall env,
      env ∈ responses (trace (snd (run (getMarkets dto this req) w))) ->
      status env = 200
      <-> failure (getMarketsUseCase this) (marketListToDto dto)
            (getMarkets_filters (query req)) w = None
          /\ unserialisable (getMarketsUseCase this) (marketListToDto dto)
               (marketListJsonError dto) (getMarkets_filters (query req)) w
             = None)
  /\ (forall env,
        env ∈ responses (trace (snd (run (getMarketById dto this req) w))) ->
        status env = 200
        <-> exists market_id : string,
              params req !! "market_id" = Some market_id
              /\ market_id <> ""
              /\ failure (getMarketByIdUseCase this) (marketToDto dto)
                   market_id w = None
              /\ unserialisable (getMarketByIdUseCase this) (marketToDto dto)
                   (marketJsonError dto) market_id w = None).
Proof.
  split; intros env; unfold failure, unserialisable; unfold_handler.
  - collaborator_cases; intros ->%list_elem_of_singleton; simpl;
      (split; [intros Hstatus | intros [? ?]]); by simplify_eq/=.
  - destruct (params req !! "market_id") as [[|a s]|] eqn:Hid; simpl.
    1,3: intros ->%list_elem_of_singleton; simpl; split; [lia|];
         intros (? & ? & ? & _); by simplify_eq.
    collaborator_cases; try destruct thrown; simpl;
      intros ->%list_elem_of_singleton; simpl;
      (split;
         [ intros Hstatus; simplify_eq/=; try lia;
           exists (String a s);
           rewrite Hexecute; simpl; rewrite ?HtoDto, ?Hjson; done
         | intros (id & [= <-] & _ & Hfailure & Hjson');
           rewrite Hexecute in Hfailure, Hjson'; simpl in Hfailure, Hjson';
           rewrite ?HtoDto in Hfailure, Hjson'; by simplify_eq/= ]).
Qed.

(** X21: a DTO that cannot be serialised makes [res.json] throw inside the
    [try]: the [TypeError] is logged like any failure, and the one answer
    is 500 with its message, after the use case has run and its result
    has been mapped. *)
Theorem unserialisable_dto_is_500 this req w (typeError : string) :
  (unserialisable (getMarketsUseCase this) (marketListToDto dto)
     (marketListJsonError dto) (getMarkets_filters (query req)) w
   = Some typeError ->
   trace (snd (run (getMarkets dto this req) w))
   = [Invoke (GetMarketsExecute (getMarkets_filters (query req)));
      ConsoleError "Error fetching markets:" (Error typeError);
      Respond {| status := 500;
                 body := ErrorBody {| error := "Internal server error";
                                      message := Some typeError |} |}])
  /\ (forall market_id : string,
        params req !! "market_id" = Some market_id ->
        market_id <> "" ->
        unserialisable (getMarketByIdUseCase this) (marketToDto dto)
          (marketJsonError dto) market_id w = Some typeError ->
        trace (snd (run (getMarketById dto this req) w))
        = [Invoke (GetMarketByIdExecute market_id);
           ConsoleError "Error fetching market by ID:" (Error typeError);
           Respond {| status := 500;
                      body := ErrorBody {| error := "Internal server error";
                                           message := Some typeError |} |}]).
Proof.
  split.
  - unfold unserialisable. unfold_handler.
    collaborator_cases; by intros [= <-].
  - intros market_id Hid Hne. unfold unserialisable. unfold_handler.
    rewrite Hid. destruct market_id; [done|]. simpl.
    collaborator_cases; by intros [= <-].
Qed.

(** X8: [getMarkets] reads the six query parameters and nothing else of
    the request: two requests that agree on them, whatever their other
    query parameters and their path parameters, are handled alike. *)
Theorem getMarkets_reads_six_parameters this req req' w :
  (forall k, k ∈ recognised -> query req !! k = query req' !! k) ->
  run (getMarkets dto this req) w = run (getMarkets dto this req') w.
Proof.
  intros Hagree. apply getMarkets_same_filters.
  by apply getMarkets_filters_agree.
Qed.

End HandlerLaws.

(** ** Blanks, hexadecimal numerals and text that is no number *)

Section MoreNumerals.

Implicit Types (q : gmap string string) (k s t : string).

Lemma trimStart_blanks (blanks : list ascii) s :
  Forall (fun c => JS.isWhiteSpace1 c = true) blanks ->
  JS.trimStart (string_of_list_ascii blanks +:+ s) = JS.trimStart s.
Proof.
  induction 1 as [|c blanks Hc _ IH]; [done|].
  change (string_of_list_ascii (c :: blanks) +:+ s)
    with (String c (string_of_list_ascii blanks +:+ s)).
  simpl. by rewrite Hc.
Qed.

(** [parseInt] sees its argument through [trimStart] only. *)
Lemma parseInt_trimStart s t :
  JS.trimStart s = JS.trimStart t -> JS.parseInt s = JS.parseInt t.
Proof. unfold JS.parseInt. by intros ->. Qed.

Lemma parseDigits_hex_acc d (p : positive) t :
  JS.parseDigits 16 (Some (Npos p))
    (HexadecimalString.NilEmpty.string_of_uint d +:+ t)
  = JS.parseDigits 16 (Some (Npos (Pos.of_hex_uint_acc d p))) t.
Proof.
  revert p. induction d as [|d IH|d IH|d IH|d IH|d IH|d IH|d IH|d IH|d IH|d IH
                             |d IH|d IH|d IH|d IH|d IH|d IH]; intros p; [done|..].
  all: cbn [HexadecimalString.NilEmpty.string_of_uint Pos.of_hex_uint_acc].
  all: match goal with
       | |- context [String ?c ?x +:+ ?t] =>
           change (String c x +:+ t) with (String c (x +:+ t));
           let v := eval vm_compute in (default 0%N (JS.radixDigit 16 c)) in
           rewrite (parseDigits_step 16 _ c v) by reflexivity
       end.
  all: rewrite <- IH; do 2 f_equal; cbn; lia.
Qed.

Lemma parseDigits_hex d (acc : option N) t :
  d <> Hexadecimal.Nil ->
  default 0%N acc = 0%N ->
  JS.parseDigits 16 acc (HexadecimalString.NilEmpty.string_of_uint d +:+ t)
  = JS.parseDigits 16 (Some (N.of_hex_uint d)) t.
Proof.
  intros Hd Hacc. revert acc Hacc.
  induction d as [|d IH|d IH|d IH|d IH|d IH|d IH|d IH|d IH|d IH|d IH
                  |d IH|d IH|d IH|d IH|d IH|d IH]; intros acc Hacc; [done|..].
  all: cbn [HexadecimalString.NilEmpty.string_of_uint N.of_hex_uint
              Pos.of_hex_uint].
  all: match goal with
       | |- context [String ?c ?x +:+ ?t] =>
           change (String c x +:+ t) with (String c (x +:+ t));
           let v := eval vm_compute in (default 0%N (JS.radixDigit 16 c)) in
           rewrite (parseDigits_step 16 _ c v) by reflexivity
       end; rewrite Hacc.
  2-16: by rewrite <- parseDigits_hex_acc.
  destruct d; [done|..]; by apply IH.
Qed.

Lemma to_hex_uint_nonnil n : N.to_hex_uint n <> Hexadecimal.Nil.
Proof. destruct n; [done|]. apply HexadecimalPos.Unsigned.to_uint_nonnil. Qed.

(** With the radix left out, the prefix [0x] switches to base sixteen. *)
Lemma parseInt_hexNumeral n : JS.parseInt ("0x" +:+ hexNumeral n) = JS.toDouble false n.
Proof.
  unfold JS.parseInt.
  change ("0x" +:+ hexNumeral n) with (String "0" (String "x" (hexNumeral n))).
  rewrite trimStart_ascii by (vm_compute; done).
  cbn [JS.stripSign JS.stripPrefix].
  unfold hexNumeral. rewrite <- (append_empty_r (HexadecimalString.NilEmpty.string_of_uint _)).
  rewrite parseDigits_hex by auto using to_hex_uint_nonnil.
  simpl. by rewrite HexadecimalN.Unsigned.of_to.
Qed.

(** A first character that is ASCII and no blank, no sign and no decimal
    digit leaves [parseInt] nothing to read. *)
Lemma parseInt_no_number c t :
  (JS.code c < 128)%N ->
  JS.isWhiteSpace1 c = false ->
  c <> "+"%char -> c <> "-"%char ->
  JS.radixDigit 10 c = None ->
  JS.parseInt (String c t) = JS.NaN.
Proof.
  intros Hascii Hblank Hplus Hminus Hdigit. unfold JS.parseInt.
  rewrite trimStart_ascii by done. clear Hascii Hblank.
  destruct c as [[] [] [] [] [] [] [] []]; try done.
Qed.

(** X18: blanks in front of the digits of a [limit] or [offset] (spaces,
    tabs, line breaks) are skipped. *)
Theorem getMarkets_filters_leading_blanks q k (blanks : list ascii) (n : N) :
  k = "limit" \/ k = "offset" ->
  Forall (fun c => JS.isWhiteSpace1 c = true) blanks ->
  q !! k = Some (string_of_list_ascii blanks +:+ numeral n) ->
  (n < 2 ^ 53)%N ->
  getMarkets_filters q !! k = Some (FNumber (JS.Finite false n)).
Proof.
  intros Hk Hblanks Hq Hn.
  rewrite (getMarkets_filters_number q k _ Hk Hq).
  - rewrite (parseInt_trimStart _ (numeral n +:+ ""))
      by (by rewrite trimStart_blanks, append_empty_r).
    by rewrite parseInt_numeral_plain, toDouble_exact.
  - destruct blanks; [|done]. rewrite <- (append_empty_r (numeral n)).
    apply numeral_nonempty.
Qed.

(** X19: [parseInt] is called without a radix, so a [limit] or [offset]
    written as [0x] and a hexadecimal numeral below 2^53 is in the filters
    as the number it denotes in base sixteen: "0x10" is 16. *)
Theorem getMarkets_filters_hexadecimal q k (n : N) :
  k = "limit" \/ k = "offset" ->
  q !! k = Some ("0x" +:+ hexNumeral n) ->
  (n < 2 ^ 53)%N ->
  getMarkets_filters q !! k = Some (FNumber (JS.Finite false n)).
Proof.
  intros Hk Hq Hn.
  rewrite (getMarkets_filters_number q k _ Hk Hq); [|done].
  by rewrite parseInt_hexNumeral, toDouble_exact.
Qed.

(** X20: a [limit] or [offset] whose first character is ASCII and neither
    a blank, a sign nor a decimal digit is in the filters as [NaN]: so are
    "abc", "ten" and ".5". *)
Theorem getMarkets_filters_not_a_number q k (c : ascii) t :
  k = "limit" \/ k = "offset" ->
  q !! k = Some (String c t) ->
  (JS.code c < 128)%N ->
  JS.isWhiteSpace1 c = false ->
  c <> "+"%char -> c <> "-"%char ->
  JS.radixDigit 10 c = None ->
  getMarkets_filters q !! k = Some (FNumber JS.NaN).
Proof.
  intros Hk Hq Hascii Hblank Hplus Hminus Hdigit.
  rewrite (getMarkets_filters_number q k _ Hk Hq); [|done].
  by rewrite parseInt_no_number.
Qed.

End MoreNumerals.

(** ** The further properties at concrete requests *)

Lemma getMarkets_success_witness :
  execute (getMarketsUseCase Double.controller)
    (getMarkets_filters (query (Double.listRequest [("status", "open")]))) 0
  = (Returns ["m0"], 1)
  /\ marketListToDto Double.dto ["m0"] = Returns ["m0"]
  /\ marketListJsonError Double.dto ["m0"] = None
  /\ run (getMarkets Double.dto Double.controller
            (Double.listRequest [("status", "open")])) 0
     = (Returns tt,
        {| world := 1;
           trace :=
             [Invoke (GetMarketsExecute
                        (getMarkets_filters
                           (query (Double.listRequest [("status", "open")]))));
              Respond {| status := 200; body := MarketListBody ["m0"] |}] |}).
Proof.
  split; [reflexivity|]. split; [reflexivity|]. split; [reflexivity|].
  apply (getMarkets_success Double.dto Double.controller
           (Double.listRequest [("status", "open")]) 0 ["m0"] 1 ["m0"]);
    reflexivity.
Defined.

Lemma getMarketById_success_witness :
  params (Double.itemRequest (Some "m0")) !! "market_id" = Some "m0"
  /\ "m0" <> ""
  /\ execute (getMarketByIdUseCase Double.controller) "m0" 0
     = (Returns "Market zero", 1)
  /\ marketToDto Double.dto "Market zero" = Returns "Market zero"
  /\ marketJsonError Double.dto "Market zero" = None
  /\ run (getMarketById Double.dto Double.controller
            (Double.itemRequest (Some "m0"))) 0
     = (Returns tt,
        {| world := 1;
           trace := [Invoke (GetMarketByIdExecute "m0");
                     Respond {| status := 200;
                                body := MarketBody "Market zero" |}] |}).
Proof.
  split; [reflexivity|]. split; [discriminate|]. split; [reflexivity|].
  split; [reflexivity|]. split; [reflexivity|].
  apply (getMarketById_success Double.dto Double.controller
           (Double.itemRequest (Some "m0")) 0 "m0" "Market zero" 1 "Market zero");
    [reflexivity | discriminate | reflexivity | reflexivity | reflexivity].
Defined.

Lemma status_200_iff_no_failure_witness :
  {| status := 500;
     body := ErrorBody {| error := "Internal server error";
                          message := Some "Converting circular structure to JSON" |} |}
    ∈ responses (trace (snd (run (getMarkets Double.cyclic Double.controller
                                    (Double.listRequest [])) 0)))
  /\ failure (getMarketsUseCase Double.controller) (marketListToDto Double.cyclic)
       (getMarkets_filters (query (Double.listRequest []))) 0 = None
  /\ ~ (failure (getMarketsUseCase Double.controller) (marketListToDto Double.cyclic)
          (getMarkets_filters (query (Double.listRequest []))) 0 = None
        /\ unserialisable (getMarketsUseCase Double.controller)
             (marketListToDto Double.cyclic) (marketListJsonError Double.cyclic)
             (getMarkets_filters (query (Double.listRequest []))) 0 = None).
Proof.
  assert ({| status := 500;
             body := ErrorBody
                       {| error := "Internal server error";
                          message := Some "Converting circular structure to JSON" |} |}
            ∈ responses (trace (snd (run (getMarkets Double.cyclic Double.controller
                                            (Double.listRequest [])) 0))))
    as Hanswer by (vm_compute; left).
  split; [exact Hanswer|]. split; [reflexivity|].
  intros Hnone.
  apply (proj1 (status_200_iff_no_failure Double.cyclic Double.controller
                  (Double.listRequest []) 0) _ Hanswer) in Hnone.
  discriminate Hnone.
Defined.

Lemma unserialisable_dto_is_500_witness :
  unserialisable (getMarketsUseCase Double.controller)
    (marketListToDto Double.cyclic) (marketListJsonError Double.cyclic)
    (getMarkets_filters (query (Double.listRequest []))) 0
  = Some "Converting circular structure to JSON"
  /\ trace (snd (run (getMarkets Double.cyclic Double.controller
                        (Double.listRequest [])) 0))
     = [Invoke (GetMarketsExecute (getMarkets_filters (query (Double.listRequest []))));
        ConsoleError "Error fetching markets:"
          (Error "Converting circular structure to JSON");
        Respond {| status := 500;
                   body := ErrorBody
                             {| error := "Internal server error";
                                message := Some "Converting circular structure to JSON" |} |}].
Proof.
  split; [reflexivity|].
  apply (proj1 (unserialisable_dto_is_500 Double.cyclic Double.controller
                  (Double.listRequest []) 0
                  "Converting circular structure to JSON")).
  reflexivity.
Defined.

Lemma getMarkets_failure_logged_witness :
  failure (getMarketsUseCase (Double.failing (Error "db down")))
    (marketListToDto Double.dto)
    (getMarkets_filters (query (Double.listRequest []))) 0
  = Some (Error "db down")
  /\ exists env,
       trace (snd (run (getMarkets Double.dto (Double.failing (Error "db down"))
                          (Double.listRequest [])) 0))
       = [Invoke (GetMarketsExecute (getMarkets_filters (query (Double.listRequest []))));
          ConsoleError "Error fetching markets:" (Error "db down");
          Respond env].
Proof.
  split; [reflexivity|].
  apply (getMarkets_failure_logged Double.dto (Double.failing (Error "db down"))
           (Double.listRequest []) 0 (Error "db down")).
  reflexivity.
Defined.

Lemma getMarketById_failure_logged_witness :
  params (Double.itemRequest (Some "m1")) !! "market_id" = Some "m1"
  /\ "m1" <> ""
  /\ failure (getMarketByIdUseCase Double.controller) (marketToDto Double.dto) "m1" 0
     = Some (NotFoundError "no market m1")
  /\ exists env,
       trace (snd (run (getMarketById Double.dto Double.controller
                          (Double.itemRequest (Some "m1"))) 0))
       = [Invoke (GetMarketByIdExecute "m1");
          ConsoleError "Error fetching market by ID:" (NotFoundError "no market m1");
          Respond env].
Proof.
  split; [reflexivity|]. split; [discriminate|]. split; [reflexivity|].
  apply (getMarketById_failure_logged Double.dto Double.controller
           (Double.itemRequest (Some "m1")) 0 "m1" (NotFoundError "no market m1"));
    [reflexivity | discriminate | reflexivity].
Defined.

Lemma getMarketById_400_iff_witness :
  {| status := 400;
     body := ErrorBody {| error := "Market ID is required"; message := None |} |}
    ∈ responses (trace (snd (run (getMarketById Double.dto Double.controller
                                    (Double.itemRequest None)) 0)))
  /\ (400 = 400
      <-> params (Double.itemRequest None) !! "market_id" = None
          \/ params (Double.itemRequest None) !! "market_id" = Some "").
Proof.
  assert ({| status := 400;
             body := ErrorBody {| error := "Market ID is required";
                                  message := None |} |}
            ∈ responses (trace (snd (run (getMarketById Double.dto Double.controller
                                            (Double.itemRequest None)) 0))))
    as Hanswer by (vm_compute; left).
  split; [exact Hanswer|].
  exact (getMarketById_400_iff Double.dto Double.controller
           (Double.itemRequest None) 0 _ Hanswer).
Defined.

Lemma getMarketById_404_iff_witness :
  {| status := 404;
     body := ErrorBody {| error := "Market not found";
                          message := Some "no market m1" |} |}
    ∈ responses (trace (snd (run (getMarketById Double.dto Double.controller
                                    (Double.itemRequest (Some "m1"))) 0)))
  /\ exists market_id m : string,
       params (Double.itemRequest (Some "m1")) !! "market_id" = Some market_id
       /\ market_id <> ""
       /\ failure (getMarketByIdUseCase Double.controller) (marketToDto Double.dto)
            market_id 0 = Some (NotFoundError m).
Proof.
  assert ({| status := 404;
             body := ErrorBody {| error := "Market not found";
                                  message := Some "no market m1" |} |}
            ∈ responses (trace (snd (run (getMarketById Double.dto Double.controller
                                            (Double.itemRequest (Some "m1"))) 0))))
    as Hanswer by (vm_compute; left).
  split; [exact Hanswer|].
  destruct (proj1 (getMarketById_404_iff Double.dto Double.controller
                     (Double.itemRequest (Some "m1")) 0 _ Hanswer) eq_refl)
    as (market_id & m & Hid & Hne & Hfailure & _).
  exists market_id, m. split; [exact Hid|]. split; [exact Hne | exact Hfailure].
Defined.

Lemma getMarkets_reads_six_parameters_witness :
  (forall k, k ∈ recognised ->
             query (Double.listRequest [("status", "open"); ("page", "2")]) !! k
             = query (Double.listRequest [("status", "open")]) !! k)
  /\ run (getMarkets Double.dto Double.controller
            (Double.listRequest [("status", "open"); ("page", "2")])) 0
     = run (getMarkets Double.dto Double.controller
              (Double.listRequest [("status", "open")])) 0.
Proof.
  assert (forall k, k ∈ recognised ->
                    query (Double.listRequest [("status", "open"); ("page", "2")]) !! k
                    = query (Double.listRequest [("status", "open")]) !! k)
    as Hagree.
  { intros k Hk. unfold recognised in Hk.
    repeat (apply elem_of_union in Hk as [Hk|Hk]);
      apply elem_of_singleton in Hk; subst k; reflexivity. }
  split; [exact Hagree|].
  exact (getMarkets_reads_six_parameters Double.dto Double.controller _ _ 0 Hagree).
Defined.

Lemma getMarkets_filters_union_witness :
  ({[ "status" := "open" ]} : gmap string string) ##ₘ {[ "limit" := "5" ]}
  /\ getMarkets_filters ({[ "status" := "open" ]} ∪ {[ "limit" := "5" ]})
     = getMarkets_filters {[ "status" := "open" ]}
       ∪ getMarkets_filters {[ "limit" := "5" ]}.
Proof.
  assert (({[ "status" := "open" ]} : gmap string string) ##ₘ {[ "limit" := "5" ]})
    as Hdisjoint by (apply map_disjoint_singleton_l_2; reflexivity).
  split; [exact Hdisjoint|].
  exact (getMarkets_filters_union _ _ Hdisjoint).
Defined.

Lemma getMarkets_filters_verbatim_witness :
  ("status" = "status" \/ "status" = "creatorId")
  /\ (getMarkets_filters {[ "status" := " open " ]} !! "status"
      = Some (FString " open ")
      <-> exists s : string,
            ({[ "status" := " open " ]} : gmap string string) !! "status" = Some s
            /\ s <> "" /\ FString " open " = FString s).
Proof.
  split; [left; reflexivity|].
  apply getMarkets_filters_verbatim. left; reflexivity.
Defined.

Lemma getMarkets_filters_provenance_witness :
  getMarkets_filters {[ "limit" := "5" ]} !! "limit"
  = Some (FNumber (JS.Finite false 5))
  /\ exists s : string,
       ({[ "limit" := "5" ]} : gmap string string) !! "limit" = Some s
       /\ s <> ""
       /\ (("limit" = "limit" \/ "limit" = "offset")
           /\ FNumber (JS.Finite false 5) = FNumber (JS.parseInt s)
           \/ "limit" <> "limit" /\ "limit" <> "offset"
              /\ FNumber (JS.Finite false 5) = FString s).
Proof.
  split; [reflexivity|].
  apply getMarkets_filters_provenance. reflexivity.
Defined.

Lemma getMarkets_filters_empty_witness :
  (forall k, k ∈ recognised ->
             ({[ "page" := "2"; "status" := "" ]} : gmap string string) !! k = None
             \/ ({[ "page" := "2"; "status" := "" ]} : gmap string string) !! k
                = Some "")
  /\ getMarkets_filters {[ "page" := "2"; "status" := "" ]} = ∅.
Proof.
  assert (forall k, k ∈ recognised ->
            ({[ "page" := "2"; "status" := "" ]} : gmap string string) !! k = None
            \/ ({[ "page" := "2"; "status" := "" ]} : gmap string string) !! k
               = Some "") as Habsent.
  { intros k Hk. unfold recognised in Hk.
    repeat (apply elem_of_union in Hk as [Hk|Hk]);
      apply elem_of_singleton in Hk; subst k;
      first [left; reflexivity | right; reflexivity]. }
  split; [exact Habsent|].
  exact (getMarkets_filters_empty _ Habsent).
Defined.

Lemma getMarkets_filters_decimal_witness :
  ("limit" = "limit" \/ "limit" = "offset")
  /\ ({[ "limit" := "25" ]} : gmap string string) !! "limit" = Some (numeral 25)
  /\ (25 < 2 ^ 53)%N
  /\ getMarkets_filters {[ "limit" := "25" ]} !! "limit"
     = Some (FNumber (JS.Finite false 25)).
Proof.
  split; [left; reflexivity|]. split; [reflexivity|]. split; [reflexivity|].
  apply (getMarkets_filters_decimal {[ "limit" := "25" ]} "limit" 25);
    [left; reflexivity | reflexivity | reflexivity].
Defined.

Lemma getMarkets_filters_negative_witness :
  ("offset" = "limit" \/ "offset" = "offset")
  /\ ({[ "offset" := "-7" ]} : gmap string string) !! "offset"
     = Some ("-" +:+ numeral 7)
  /\ (7 < 2 ^ 53)%N
  /\ getMarkets_filters {[ "offset" := "-7" ]} !! "offset"
     = Some (FNumber (JS.Finite true 7)).
Proof.
  split; [right; reflexivity|]. split; [reflexivity|]. split; [reflexivity|].
  apply (getMarkets_filters_negative {[ "offset" := "-7" ]} "offset" 7);
    [right; reflexivity | reflexivity | reflexivity].
Defined.

Lemma getMarkets_filters_trailing_text_witness :
  ("limit" = "limit" \/ "limit" = "offset")
  /\ ({[ "limit" := "12.5" ]} : gmap string string) !! "limit"
     = Some (numeral 12 +:+ ".5")
  /\ stops_number ".5"
  /\ (12 < 2 ^ 53)%N
  /\ getMarkets_filters {[ "limit" := "12.5" ]} !! "limit"
     = Some (FNumber (JS.Finite false 12)).
Proof.
  assert (stops_number ".5") as Hstops
    by (split; [reflexivity|]; split; discriminate).
  split; [left; reflexivity|]. split; [reflexivity|]. split; [exact Hstops|].
  split; [reflexivity|].
  apply (getMarkets_filters_trailing_text {[ "limit" := "12.5" ]} "limit" 12 ".5");
    [left; reflexivity | reflexivity | exact Hstops | reflexivity].
Defined.

Lemma getMarkets_filters_leading_blanks_witness :
  ("limit" = "limit" \/ "limit" = "offset")
  /\ Forall (fun c => JS.isWhiteSpace1 c = true) [" "%char; " "%char]
  /\ ({[ "limit" := "  12" ]} : gmap string string) !! "limit"
     = Some (string_of_list_ascii [" "%char; " "%char] +:+ numeral 12)
  /\ (12 < 2 ^ 53)%N
  /\ getMarkets_filters {[ "limit" := "  12" ]} !! "limit"
     = Some (FNumber (JS.Finite false 12)).
Proof.
  assert (Forall (fun c => JS.isWhiteSpace1 c = true) [" "%char; " "%char])
    as Hblanks by (repeat constructor).
  split; [left; reflexivity|]. split; [exact Hblanks|]. split; [reflexivity|].
  split; [reflexivity|].
  apply (getMarkets_filters_leading_blanks {[ "limit" := "  12" ]} "limit"
           [" "%char; " "%char] 12);
    [left; reflexivity | exact Hblanks | reflexivity | reflexivity].
Defined.

Lemma getMarkets_filters_hexadecimal_witness :
  ("limit" = "limit" \/ "limit" = "offset")
  /\ ({[ "limit" := "0x10" ]} : gmap string string) !! "limit"
     = Some ("0x" +:+ hexNumeral 16)
  /\ (16 < 2 ^ 53)%N
  /\ getMarkets_filters {[ "limit" := "0x10" ]} !! "limit"
     = Some (FNumber (JS.Finite false 16)).
Proof.
  split; [left; reflexivity|]. split; [reflexivity|]. split; [reflexivity|].
  apply (getMarkets_filters_hexadecimal {[ "limit" := "0x10" ]} "limit" 16);
    [left; reflexivity | reflexivity | reflexivity].
Defined.

Lemma getMarkets_filters_not_a_number_witness :
  ("limit" = "limit" \/ "limit" = "offset")
  /\ ({[ "limit" := ".5" ]} : gmap string string) !! "limit"
     = Some (String "." "5")
  /\ (JS.code "." < 128)%N
  /\ JS.isWhiteSpace1 "." = false
  /\ "."%char <> "+"%char /\ "."%char <> "-"%char
  /\ JS.radixDigit 10 "." = None
  /\ getMarkets_filters {[ "limit" := ".5" ]} !! "limit" = Some (FNumber JS.NaN).
Proof.
  split; [left; reflexivity|]. split; [reflexivity|]. split; [reflexivity|].
  split; [reflexivity|]. split; [discriminate|]. split; [discriminate|].
  split; [reflexivity|].
  apply (getMarkets_filters_not_a_number {[ "limit" := ".5" ]} "limit" "." "5");
    [left; reflexivity | reflexivity | reflexivity | reflexivity
     | discriminate | discriminate | reflexivity].
Defined.
